(** * Typed JSON extraction and settings layering of the terminal

    A shallow embedding of [src/cascadia/TerminalApp/JsonUtils.h] (the
    [TerminalApp::JsonUtils] helpers) and of [GlobalAppSettings]
    ([LayerJson], the enum mappings and the launch position parser), with
    the properties the specification states about them.

    References passed to the C++ helpers ([T& target]) are modelled by
    explicit state passing: a call takes the referenced value and yields
    the value it leaves behind, together with what it returned or threw. *)

From Stdlib Require Import ZArith String Ascii List Bool Lia.
From Stdlib Require Import Floats.SpecFloat.
From stdpp Require Import gmap strings pretty.

Set Warnings "-register-all".
Set Default Proof Using "Type".

Open Scope string_scope.
Open Scope Z_scope.

(** ** C++ exceptions and the outcome of a call *)

Module Cpp.

(** The double quote character, for the messages that contain one. *)
Definition dquote : string := String (ascii_of_nat 34) EmptyString.

(** [std::string::c_str()] read back as a C string: the characters up to
    the first NUL. *)
Fixpoint c_str (s : string) : string :=
  match s with
  | EmptyString => EmptyString
  | String c rest =>
      if Ascii.eqb c zero then EmptyString else String c (c_str rest)
  end.

(** The exception objects the code throws or lets through; all of them
    derive from [std::exception].
    - [TypeMismatchException] and [KeyedException]: JsonUtils.h;
    - [LogicError]: jsoncpp's [Json::LogicError], raised by its
      [JSON_ASSERT_MESSAGE] / [JSON_FAIL_MESSAGE];
    - [invalid_argument], [out_of_range]: thrown by [std::stoi];
    - [ResultException]: what WIL's [THROW_HR] throws, with the HRESULT;
    - [runtime_error]: any other failure of a helper outside this file. *)
Inductive exception : Type :=
| TypeMismatchException
| KeyedException (key : string) (inner : exception)
| LogicError (msg : string)
| invalid_argument (msg : string)
| out_of_range (msg : string)
| ResultException (hr : Z) (msg : string)
| runtime_error (msg : string).

(** [std::exception::what()].  [KeyedException] formats
    [error parsing "{0}": {1}] from the key and the inner [what()]. *)
Fixpoint what (e : exception) : string :=
  match e with
  | TypeMismatchException => "invalid type"
  | KeyedException key inner =>
      c_str ("error parsing " ++ dquote ++ key ++ dquote ++ ": " ++ what inner)
  | LogicError msg => msg
  | invalid_argument msg => msg
  | out_of_range msg => msg
  | ResultException _ msg => msg
  | runtime_error msg => msg
  end.

(** A value-returning expression that may throw. *)
Inductive result (T : Type) : Type :=
| Ok (v : T)
| Throw (e : exception).
Arguments Ok {T} v.
Arguments Throw {T} e.

(** A call that works on a referenced object of type [S]: it leaves the
    object as [s] and either returns [r] or throws [e]. *)
Inductive outcome (S R : Type) : Type :=
| Returned (s : S) (r : R)
| Thrown (s : S) (e : exception).
Arguments Returned {S R} s r.
Arguments Thrown {S R} s e.

(** The object a call leaves behind, on either exit. *)
Definition final {S R} (o : outcome S R) : S :=
  match o with
  | Returned s _ => s
  | Thrown s _ => s
  end.

(** Statements in sequence on the same object. *)
Definition stmt (S R : Type) : Type := S -> outcome S R.

Definition seq {S A B} (a : stmt S A) (k : A -> stmt S B) : stmt S B :=
  fun s =>
    match a s with
    | Returned s' r => k r s'
    | Thrown s' e => Thrown s' e
    end.

End Cpp.
Export Cpp.

Notation "a >> b" := (Cpp.seq a (fun _ => b))
  (at level 62, right associativity).

(** ** The JSON document: jsoncpp's [Json::Value]

    [json.h] is included by the source; its accessors are written here
    after jsoncpp's [json_value.cpp], whose [JSON_ASSERT_MESSAGE] and
    [JSON_FAIL_MESSAGE] throw [Json::LogicError]. *)

Module Json.

(** [Value::minInt], [Value::maxInt], [Value::maxUInt]: the 32 bit
    [Json::Int] and [Json::UInt]. *)
Definition minInt : Z := - 2 ^ 31.
Definition maxInt : Z := 2 ^ 31 - 1.
Definition maxUInt : Z := 2 ^ 32 - 1.

(** One constructor per [ValueType].  [intValue] holds a 64 bit signed,
    [uintValue] a 64 bit unsigned integer, [realValue] a binary64. *)
Inductive Value : Type :=
| nullValue
| intValue (i : Z)
| uintValue (u : Z)
| realValue (d : spec_float)
| stringValue (s : string)
| booleanValue (b : bool)
| arrayValue (a : list Value)
| objectValue (m : gmap string Value).

(** A finite double as the fraction [n / q], [q] a power of two. *)
Definition fraction (d : spec_float) : option (Z * Z) :=
  match d with
  | S754_zero _ => Some (0, 1)
  | S754_finite s m e =>
      let n := if s then Z.neg m else Z.pos m in
      if 0 <=? e then Some (n * 2 ^ e, 1) else Some (n, 2 ^ (- e))
  | S754_infinity _ => None
  | S754_nan => None
  end.

(** [InRange(d, min, max)]: [d >= min && d <= max] on doubles; false for
    the infinities and NaN. *)
Definition InRange (d : spec_float) (lo hi : Z) : bool :=
  match fraction d with
  | Some (n, q) => (lo * q <=? n) && (n <=? hi * q)
  | None => false
  end.

(** [IsIntegral(d)], used only next to [InRange]. *)
Definition IsIntegral (d : spec_float) : bool :=
  match fraction d with
  | Some (n, q) => n mod q =? 0
  | None => true
  end.

(** The cast [Int(d)] of a double in range: truncation toward zero. *)
Definition truncate (d : spec_float) : Z :=
  match fraction d with
  | Some (n, q) => Z.quot n q
  | None => 0
  end.

(** The casts [double(i)] and [float(i)] of an integer, and the narrowing
    of a double to binary32.  A [float] is kept as the [spec_float] it
    denotes. *)
Definition to_double (i : Z) : spec_float := binary_normalize 53 1024 i 0 false.
Definition to_float (i : Z) : spec_float := binary_normalize 24 128 i 0 false.
Definition narrow (d : spec_float) : spec_float :=
  match d with
  | S754_finite s m e =>
      binary_normalize 24 128 (if s then Z.neg m else Z.pos m) e s
  | _ => d
  end.

Definition isNull (v : Value) : bool :=
  match v with nullValue => true | _ => false end.

(** [explicit operator bool() const { return !isNull(); }] *)
Definition to_bool (v : Value) : bool := negb (isNull v).

Definition isBool (v : Value) : bool :=
  match v with booleanValue _ => true | _ => false end.

Definition isString (v : Value) : bool :=
  match v with stringValue _ => true | _ => false end.

Definition isInt (v : Value) : bool :=
  match v with
  | intValue i => (minInt <=? i) && (i <=? maxInt)
  | uintValue u => u <=? maxInt
  | realValue d => InRange d minInt maxInt && IsIntegral d
  | _ => false
  end.

Definition isUInt (v : Value) : bool :=
  match v with
  | intValue i => (0 <=? i) && (i <=? maxUInt)
  | uintValue u => u <=? maxUInt
  | realValue d => InRange d 0 maxUInt && IsIntegral d
  | _ => false
  end.

Definition isDouble (v : Value) : bool :=
  match v with
  | intValue _ | uintValue _ | realValue _ => true
  | _ => false
  end.

Definition isNumeric (v : Value) : bool := isDouble v.

(** [JSON_ASSERT_MESSAGE(cond, msg); return x;] *)
Definition assert_then {T} (cond : bool) (msg : string) (x : T) : result T :=
  if cond then Ok x else Throw (LogicError msg).

Definition asInt (v : Value) : result Z :=
  match v with
  | intValue i => assert_then (isInt v) "LargestInt out of Int range" i
  | uintValue u => assert_then (isInt v) "LargestUInt out of Int range" u
  | realValue d =>
      assert_then (InRange d minInt maxInt) "double out of Int range" (truncate d)
  | nullValue => Ok 0
  | booleanValue b => Ok (if b then 1 else 0)
  | _ => Throw (LogicError "Value is not convertible to Int.")
  end.

Definition asUInt (v : Value) : result Z :=
  match v with
  | intValue i => assert_then (isUInt v) "LargestInt out of UInt range" i
  | uintValue u => assert_then (isUInt v) "LargestUInt out of UInt range" u
  | realValue d =>
      assert_then (InRange d 0 maxUInt) "double out of UInt range" (truncate d)
  | nullValue => Ok 0
  | booleanValue b => Ok (if b then 1 else 0)
  | _ => Throw (LogicError "Value is not convertible to UInt.")
  end.

Definition asBool (v : Value) : result bool :=
  match v with
  | booleanValue b => Ok b
  | nullValue => Ok false
  | intValue i => Ok (negb (i =? 0))
  | uintValue u => Ok (negb (u =? 0))
  | realValue d => Ok (match d with S754_zero _ => false | _ => true end)
  | _ => Throw (LogicError "Value is not convertible to bool.")
  end.

Definition asDouble (v : Value) : result spec_float :=
  match v with
  | intValue i => Ok (to_double i)
  | uintValue u => Ok (to_double u)
  | realValue d => Ok d
  | nullValue => Ok (S754_zero false)
  | booleanValue b => Ok (if b then to_double 1 else S754_zero false)
  | _ => Throw (LogicError "Value is not convertible to double.")
  end.

Definition asFloat (v : Value) : result spec_float :=
  match v with
  | intValue i => Ok (to_float i)
  | uintValue u => Ok (to_float u)
  | realValue d => Ok (narrow d)
  | nullValue => Ok (S754_zero false)
  | booleanValue b => Ok (if b then to_float 1 else S754_zero false)
  | _ => Throw (LogicError "Value is not convertible to float.")
  end.

(** [asString]: [valueToString] prints an integer in decimal; how it
    prints a double is left to [print_double]. *)
Definition asString (print_double : spec_float -> string) (v : Value)
  : result string :=
  match v with
  | nullValue => Ok ""
  | stringValue s => Ok s
  | booleanValue b => Ok (if b then "true" else "false")
  | intValue i => Ok (pretty i)
  | uintValue u => Ok (pretty u)
  | realValue d => Ok (print_double d)
  | _ => Throw (LogicError "Type is not convertible to string")
  end.

(** [bool getString(char const** begin, char const** end) const]: false,
    with both pointers untouched, unless the value is a string. *)
Definition getString (v : Value) : option string :=
  match v with stringValue s => Some s | _ => None end.

(** [Value const* find(char const* begin, char const* end) const]: the
    member under the key, a null pointer when there is none or when the
    value is null; it asserts that the value is an object or null. *)
Definition find (v : Value) (key : string) : result (option Value) :=
  match v with
  | nullValue => Ok None
  | objectValue m => Ok (m !! key)
  | _ => Throw (LogicError
           "in Json::Value::find(key, end, found): requires objectValue or nullValue")
  end.

(** [const Value& operator[](const std::string& key) const]: the member
    that [find] gives, [nullSingleton()] when there is none. *)
Definition index (v : Value) (key : string) : result Value :=
  match find v key with
  | Ok (Some found) => Ok found
  | Ok None => Ok nullValue
  | Throw e => Throw e
  end.

End Json.

(** ** What the source uses and does not define

    Declared in headers outside these files: the GUID and colour parsers
    of [../types/inc/utils.hpp], [til::u8u16], jsoncpp's printing of a
    double, the text WIL gives a thrown HRESULT, the constants of
    [DefaultSettings.h] with the [_DEBUG] switch, and [AppKeyBindings]
    with its own [LayerJson]. *)

Class Externals : Type := {
  GUID : Type;
  GUID_NULL : GUID;
  GuidFromString : string -> result GUID;
  color : Type;
  ColorFromHexString : string -> result color;
  wstring : Type;
  u8u16 : string -> result wstring;
  valueToString : spec_float -> string;
  hresult_message : Z -> string;
  DEFAULT_ROWS : Z;
  DEFAULT_COLS : Z;
  DEFAULT_ROWSTOSCROLL : Z;
  DEFAULT_WORD_DELIMITERS : wstring;
  _DEBUG : bool;
  SettingsLoadWarnings : Type;
  AppKeyBindings : Type;
  make_AppKeyBindings : AppKeyBindings;
  AppKeyBindings_LayerJson :
    Json.Value -> AppKeyBindings -> outcome AppKeyBindings (list SettingsLoadWarnings)
}.

(** [T local{}]: the value a value-initialised object starts with. *)
Class ValueInit (T : Type) : Type := value_init : T.

#[export] Instance ValueInit_Z : ValueInit Z := 0.
#[export] Instance ValueInit_N : ValueInit N := 0%N.
#[export] Instance ValueInit_bool : ValueInit bool := false.
#[export] Instance ValueInit_string : ValueInit string := "".
#[export] Instance ValueInit_double : ValueInit spec_float := S754_zero false.
#[export] Instance ValueInit_optional {T} : ValueInit (option T) := None.

(** ** JsonUtils.h *)

Module JsonUtils.

Module Detail.
(** The view stays empty when [getString] reports no string. *)
Definition GetStringView (json : Json.Value) : string :=
  match Json.getString json with
  | Some s => s
  | None => ""
  end.
End Detail.

(** [template<typename T> struct ConversionTrait]: each specialization
    gives the two static members. *)
Class ConversionTrait (T : Type) : Type := {
  FromJson : Json.Value -> result T;
  CanConvert : Json.Value -> bool
}.

(** C++ [float], a binary32 kept as the [spec_float] it denotes; [double]
    is [spec_float], [int] is [Z] and [unsigned int] is [N]. *)
Variant float : Type := Float (f : spec_float).

Definition result_map {A B} (f : A -> B) (r : result A) : result B :=
  match r with
  | Ok v => Ok (f v)
  | Throw e => Throw e
  end.

Section Specializations.
Context `{Externals}.

#[export] Instance ConversionTrait_string : ConversionTrait string := {|
  FromJson json := Json.asString valueToString json;
  CanConvert json := Json.isString json
|}.

#[export] Instance ConversionTrait_wstring : ConversionTrait wstring := {|
  FromJson json := u8u16 (Detail.GetStringView json);
  CanConvert json := Json.isString json
|}.

#[export] Instance ConversionTrait_bool : ConversionTrait bool := {|
  FromJson json := Json.asBool json;
  CanConvert json := Json.isBool json
|}.

#[export] Instance ConversionTrait_int : ConversionTrait Z := {|
  FromJson json := Json.asInt json;
  CanConvert json := Json.isInt json
|}.

#[export] Instance ConversionTrait_unsigned_int : ConversionTrait N := {|
  FromJson json := result_map Z.to_N (Json.asUInt json);
  CanConvert json := Json.isInt json
|}.

#[export] Instance ConversionTrait_float : ConversionTrait float := {|
  FromJson json := result_map Float (Json.asFloat json);
  CanConvert json := Json.isNumeric json
|}.

#[export] Instance ConversionTrait_double : ConversionTrait spec_float := {|
  FromJson json := Json.asDouble json;
  CanConvert json := Json.isNumeric json
|}.

(** Also the trait of [winrt::guid], which derives from this one. *)
#[export] Instance ConversionTrait_GUID : ConversionTrait GUID := {|
  FromJson json := GuidFromString (Detail.GetStringView json);
  CanConvert json := Json.isString json
|}.

#[export] Instance ConversionTrait_color : ConversionTrait color := {|
  FromJson json := ColorFromHexString (Detail.GetStringView json);
  CanConvert json := Json.isString json
|}.
End Specializations.

(** [KeyValueMapper<T, TBase>]: [TBase::mappings] is a [std::array] of
    pairs with an element 0, given here as that element and the rest. *)
Section KeyValueMapper.
Context {T : Type}.

Definition pair_type : Type := string * T.

Record mappings_array : Type := {
  mappings_0 : pair_type;
  mappings_rest : list pair_type
}.

Definition mappings (a : mappings_array) : list pair_type :=
  mappings_0 a :: mappings_rest a.

(** [for (const auto& pair : TBase::mappings) if (pair.first == name)
    return pair.second;] *)
Fixpoint mappings_scan (pairs : list pair_type) (name : string) : option T :=
  match pairs with
  | [] => None
  | pair_ :: rest =>
      if String.eqb (fst pair_) name then Some (snd pair_)
      else mappings_scan rest name
  end.

Definition KeyValueMapper_FromJson (a : mappings_array) (json : Json.Value) : T :=
  let name := Detail.GetStringView json in
  match mappings_scan (mappings a) name with
  | Some second => second
  | None => snd (mappings_0 a)
  end.

Definition KeyValueMapper (a : mappings_array) : ConversionTrait T := {|
  FromJson json := Ok (KeyValueMapper_FromJson a json);
  CanConvert json := Json.isString json
|}.
End KeyValueMapper.
Arguments pair_type : clear implicits.
Arguments mappings_array : clear implicits.

(** The two overloads of [GetValue]; [GetValueFor T] is the overload the
    compiler picks for a target of type [T]. *)
Class GetValueFor (T : Type) : Type :=
  get_value : Json.Value -> T -> outcome T bool.

Definition GetValue {T} `{ConversionTrait T} (json : Json.Value) (target : T)
  : outcome T bool :=
  if Json.to_bool json then
    if negb (CanConvert json) then Thrown target TypeMismatchException
    else
      match FromJson json with
      | Ok v => Returned v true
      | Throw e => Thrown target e
      end
  else Returned target false.

#[export] Instance GetValueFor_T {T} `{ConversionTrait T} : GetValueFor T | 10 :=
  GetValue.

Definition GetValue_optional {TOpt} `{GetValueFor TOpt} `{ValueInit TOpt}
    (json : Json.Value) (target : option TOpt) : outcome (option TOpt) bool :=
  if Json.isNull json then Returned None true
  else
    let local : TOpt := value_init in
    match get_value json local with
    | Returned local' true => Returned (Some local') true
    | Returned _ false => Returned target false
    | Thrown _ e => Thrown target e
    end.

#[export] Instance GetValueFor_optional {TOpt} `{GetValueFor TOpt} `{ValueInit TOpt}
  : GetValueFor (option TOpt) | 0 := GetValue_optional.

(** The [catch (const std::exception& e)] takes every exception of
    [Cpp.exception]; [find] runs before the [try]. *)
Definition GetValueForKey {T} `{GetValueFor T}
    (json : Json.Value) (key : string) (target : T) : outcome T bool :=
  match Json.find json key with
  | Throw e => Thrown target e
  | Ok (Some found) =>
      match get_value found target with
      | Returned target' b => Returned target' b
      | Thrown target' e => Thrown target' (KeyedException key e)
      end
  | Ok None => Returned target false
  end.




End JsonUtils.

(** ** GlobalAppSettings *)

Module TerminalApp.
Import JsonUtils.

(** [winrt::Windows::UI::Xaml::ElementTheme] *)
Module ElementTheme.
Variant t : Type := Default | Light | Dark.
End ElementTheme.

(** [winrt::TerminalApp::LaunchMode] *)
Module LaunchMode.
Variant t : Type := DefaultMode | MaximizedMode.
End LaunchMode.

(** [winrt::Microsoft::UI::Xaml::Controls::TabViewWidthMode] *)
Module TabViewWidthMode.
Variant t : Type := Equal | SizeToContent.
End TabViewWidthMode.

Definition KeybindingsKey : string := "keybindings".
Definition DefaultProfileKey : string := "defaultProfile".
Definition AlwaysShowTabsKey : string := "alwaysShowTabs".
Definition InitialRowsKey : string := "initialRows".
Definition InitialColsKey : string := "initialCols".
Definition RowsToScrollKey : string := "rowsToScroll".
Definition InitialPositionKey : string := "initialPosition".
Definition ShowTitleInTitlebarKey : string := "showTerminalTitleInTitlebar".
Definition ThemeKey : string := "theme".
Definition TabWidthModeKey : string := "tabWidthMode".
Definition EqualTabWidthModeValue : string := "equal".
Definition TitleLengthTabWidthModeValue : string := "titleLength".
Definition ShowTabsInTitlebarKey : string := "showTabsInTitlebar".
Definition WordDelimitersKey : string := "wordDelimiters".
Definition CopyOnSelectKey : string := "copyOnSelect".
Definition CopyFormattingKey : string := "copyFormatting".
Definition LaunchModeKey : string := "launchMode".
Definition ConfirmCloseAllKey : string := "confirmCloseAllTabs".
Definition SnapToGridOnResizeKey : string := "snapToGridOnResize".
Definition DefaultLaunchModeValue : string := "default".
Definition MaximizedLaunchModeValue : string := "maximized".
Definition LightThemeValue : string := "light".
Definition DarkThemeValue : string := "dark".
Definition SystemThemeValue : string := "system".
Definition DebugFeaturesKey : string := "debugFeatures".

(** [JsonKey] hands the key to jsoncpp as a [std::string]. *)
Definition JsonKey (key : string) : string := key.

Definition ElementTheme_mappings : mappings_array ElementTheme.t := {|
  mappings_0 := (SystemThemeValue, ElementTheme.Default);
  mappings_rest := [ (LightThemeValue, ElementTheme.Light);
                     (DarkThemeValue, ElementTheme.Dark) ]
|}.

Definition LaunchMode_mappings : mappings_array LaunchMode.t := {|
  mappings_0 := (DefaultLaunchModeValue, LaunchMode.DefaultMode);
  mappings_rest := [ (MaximizedLaunchModeValue, LaunchMode.MaximizedMode) ]
|}.

Definition TabViewWidthMode_mappings : mappings_array TabViewWidthMode.t := {|
  mappings_0 := (EqualTabWidthModeValue, TabViewWidthMode.Equal);
  mappings_rest := [ (TitleLengthTabWidthModeValue, TabViewWidthMode.SizeToContent) ]
|}.

#[export] Instance ConversionTrait_ElementTheme : ConversionTrait ElementTheme.t :=
  KeyValueMapper ElementTheme_mappings.

#[export] Instance ConversionTrait_LaunchMode : ConversionTrait LaunchMode.t :=
  KeyValueMapper LaunchMode_mappings.

#[export] Instance ConversionTrait_TabViewWidthMode : ConversionTrait TabViewWidthMode.t :=
  KeyValueMapper TabViewWidthMode_mappings.

(** [struct LaunchPosition { std::optional<int> x, y; };] *)
Record LaunchPosition : Type := {
  x : option Z;
  y : option Z
}.

(** *** [std::stoi] and [std::getline], as the launch position parser
    uses them *)

Definition INT_MIN : Z := - 2 ^ 31.
Definition INT_MAX : Z := 2 ^ 31 - 1.

(** [isspace] in the C locale: the space and the controls 9 to 13. *)
Definition isspace (c : ascii) : bool :=
  let n := Z.of_nat (nat_of_ascii c) in
  (n =? 32) || ((9 <=? n) && (n <=? 13)).

Definition isdigit (c : ascii) : bool :=
  let n := Z.of_nat (nat_of_ascii c) in
  (48 <=? n) && (n <=? 57).

Definition digit_value (c : ascii) : Z := Z.of_nat (nat_of_ascii c) - 48.

Fixpoint skip_spaces (s : string) : string :=
  match s with
  | String c rest => if isspace c then skip_spaces rest else s
  | EmptyString => s
  end.

(** The decimal digits a string starts with, as a number; [acc] is [None]
    until a digit has been read. *)
Fixpoint read_digits (s : string) (acc : option Z) : option Z :=
  match s with
  | String c rest =>
      if isdigit c
      then read_digits rest (Some (10 * default 0 acc + digit_value c))
      else acc
  | EmptyString => acc
  end.

(** [strtol(s, &end, 10)] without its clamping: white space, one optional
    sign, digits; [None] when no conversion is performed ([end == s]). *)
Definition strtol (s : string) : option Z :=
  match skip_spaces s with
  | String c rest =>
      if Ascii.eqb c "-" then Z.opp <$> read_digits rest None
      else if Ascii.eqb c "+" then read_digits rest None
      else read_digits (String c rest) None
  | EmptyString => None
  end.

(** [std::stoi(str)]: [std::invalid_argument] when nothing converts,
    [std::out_of_range] when the number does not fit an [int]. *)
Definition stoi (str : string) : result Z :=
  match strtol (c_str str) with
  | None => Throw (invalid_argument "invalid stoi argument")
  | Some n =>
      if (INT_MIN <=? n) && (n <=? INT_MAX) then Ok n
      else Throw (out_of_range "stoi argument out of range")
  end.

(** The characters of a stream up to the delimiter, and what follows it. *)
Fixpoint read_until (delim : ascii) (s : string) : string * string :=
  match s with
  | EmptyString => (EmptyString, EmptyString)
  | String c rest =>
      if Ascii.eqb c delim then (EmptyString, rest)
      else let '(token, rest') := read_until delim rest in (String c token, rest')
  end.

(** [std::getline(stream, token, delim)] on the characters a stream has
    left: it fails when there is none, else it gives the token and leaves
    the stream after the delimiter. *)
Definition getline (stream : string) (delim : ascii) : option (string * string) :=
  match stream with
  | EmptyString => None
  | _ => Some (read_until delim stream)
  end.

Definition singleCharDelim : ascii := ","%char.

(** What a token gives a coordinate: the [int] that [std::stoi] returns,
    nothing when it throws. *)
Definition coordinate (token : string) : option Z :=
  match stoi token with
  | Ok position => Some position
  | Throw _ => None
  end.

(** The body of the [for] in [FromJson]: [catch (...)] keeps [ret]. *)
Definition LaunchPosition_body (token : string) (initialPosIndex : Z)
    (ret : LaunchPosition) : LaunchPosition :=
  match stoi token with
  | Ok position =>
      let ret1 := if initialPosIndex =? 0
                  then {| x := Some position; y := y ret |} else ret in
      if initialPosIndex =? 1
      then {| x := x ret1; y := Some position |} else ret1
  | Throw _ => ret
  end.

(** [for (; std::getline(...) && (initialPosIndex < 2); initialPosIndex++)],
    [initialPosIndex] a [uint8_t]; every turn of the loop uses one unit of
    [fuel]. *)
Fixpoint LaunchPosition_loop (fuel : nat) (tokenStream : string)
    (initialPosIndex : Z) (ret : LaunchPosition) : LaunchPosition :=
  match fuel with
  | O => ret
  | S fuel' =>
      match getline tokenStream singleCharDelim with
      | Some (token, tokenStream') =>
          if initialPosIndex <? 2 then
            LaunchPosition_loop fuel' tokenStream'
              ((initialPosIndex + 1) mod 256)
              (LaunchPosition_body token initialPosIndex ret)
          else ret
      | None => ret
      end
  end.

Section Settings.
Context `{Externals}.

(** [ConversionTrait<LaunchPosition>::FromJson]: a stream of [n] characters
    is read in at most [n + 1] calls of [getline]. *)
Definition LaunchPosition_FromJson (json : Json.Value) : result LaunchPosition :=
  match Json.asString valueToString json with
  | Throw e => Throw e
  | Ok initialPosition =>
      Ok (LaunchPosition_loop (S (String.length initialPosition))
            initialPosition 0 {| x := None; y := None |})
  end.

#[export] Instance ConversionTrait_LaunchPosition : ConversionTrait LaunchPosition := {|
  FromJson := LaunchPosition_FromJson;
  CanConvert json := Json.isString json
|}.

(** [debugFeaturesDefault] *)
Definition debugFeaturesDefault : bool := _DEBUG.

(** The data members: the two private ones that [LayerJson] touches and
    those that [GETSET_PROPERTY] declares ([_DebugFeatures] is the member
    behind the debug features switch). *)
Record GlobalAppSettings : Type := {
  _keybindings : AppKeyBindings;
  _keybindingsWarnings : list SettingsLoadWarnings;
  _DefaultProfile : GUID;
  _InitialRows : Z;
  _InitialCols : Z;
  _AlwaysShowTabs : bool;
  _ShowTitleInTitlebar : bool;
  _ConfirmCloseAllTabs : bool;
  _Theme : ElementTheme.t;
  _TabWidthMode : TabViewWidthMode.t;
  _RowsToScroll : Z;
  _ShowTabsInTitlebar : bool;
  _WordDelimiters : wstring;
  _CopyOnSelect : bool;
  _CopyFormatting : bool;
  _InitialPosition : LaunchPosition;
  _LaunchMode : LaunchMode.t;
  _SnapToGridOnResize : bool;
  _DebugFeatures : bool
}.

(** The assignments [_Member = v], one per data member. *)
Definition set_keybindings (v : AppKeyBindings) (s : GlobalAppSettings)
  : GlobalAppSettings :=
  {| _keybindings := v; _keybindingsWarnings := _keybindingsWarnings s;
     _DefaultProfile := _DefaultProfile s; _InitialRows := _InitialRows s;
     _InitialCols := _InitialCols s; _AlwaysShowTabs := _AlwaysShowTabs s;
     _ShowTitleInTitlebar := _ShowTitleInTitlebar s;
     _ConfirmCloseAllTabs := _ConfirmCloseAllTabs s; _Theme := _Theme s;
     _TabWidthMode := _TabWidthMode s; _RowsToScroll := _RowsToScroll s;
     _ShowTabsInTitlebar := _ShowTabsInTitlebar s;
     _WordDelimiters := _WordDelimiters s;
     _CopyOnSelect := _CopyOnSelect s;
     _CopyFormatting := _CopyFormatting s;
     _InitialPosition := _InitialPosition s; _LaunchMode := _LaunchMode s;
     _SnapToGridOnResize := _SnapToGridOnResize s;
     _DebugFeatures := _DebugFeatures s |}.

Definition set_keybindingsWarnings (v : list SettingsLoadWarnings) (s : GlobalAppSettings)
  : GlobalAppSettings :=
  {| _keybindings := _keybindings s; _keybindingsWarnings := v;
     _DefaultProfile := _DefaultProfile s; _InitialRows := _InitialRows s;
     _InitialCols := _InitialCols s; _AlwaysShowTabs := _AlwaysShowTabs s;
     _ShowTitleInTitlebar := _ShowTitleInTitlebar s;
     _ConfirmCloseAllTabs := _ConfirmCloseAllTabs s; _Theme := _Theme s;
     _TabWidthMode := _TabWidthMode s; _RowsToScroll := _RowsToScroll s;
     _ShowTabsInTitlebar := _ShowTabsInTitlebar s;
     _WordDelimiters := _WordDelimiters s;
     _CopyOnSelect := _CopyOnSelect s;
     _CopyFormatting := _CopyFormatting s;
     _InitialPosition := _InitialPosition s; _LaunchMode := _LaunchMode s;
     _SnapToGridOnResize := _SnapToGridOnResize s;
     _DebugFeatures := _DebugFeatures s |}.

Definition set_DefaultProfile (v : GUID) (s : GlobalAppSettings)
  : GlobalAppSettings :=
  {| _keybindings := _keybindings s;
     _keybindingsWarnings := _keybindingsWarnings s; _DefaultProfile := v;
     _InitialRows := _InitialRows s; _InitialCols := _InitialCols s;
     _AlwaysShowTabs := _AlwaysShowTabs s;
     _ShowTitleInTitlebar := _ShowTitleInTitlebar s;
     _ConfirmCloseAllTabs := _ConfirmCloseAllTabs s; _Theme := _Theme s;
     _TabWidthMode := _TabWidthMode s; _RowsToScroll := _RowsToScroll s;
     _ShowTabsInTitlebar := _ShowTabsInTitlebar s;
     _WordDelimiters := _WordDelimiters s;
     _CopyOnSelect := _CopyOnSelect s;
     _CopyFormatting := _CopyFormatting s;
     _InitialPosition := _InitialPosition s; _LaunchMode := _LaunchMode s;
     _SnapToGridOnResize := _SnapToGridOnResize s;
     _DebugFeatures := _DebugFeatures s |}.

Definition set_InitialRows (v : Z) (s : GlobalAppSettings)
  : GlobalAppSettings :=
  {| _keybindings := _keybindings s;
     _keybindingsWarnings := _keybindingsWarnings s;
     _DefaultProfile := _DefaultProfile s; _InitialRows := v;
     _InitialCols := _InitialCols s; _AlwaysShowTabs := _AlwaysShowTabs s;
     _ShowTitleInTitlebar := _ShowTitleInTitlebar s;
     _ConfirmCloseAllTabs := _ConfirmCloseAllTabs s; _Theme := _Theme s;
     _TabWidthMode := _TabWidthMode s; _RowsToScroll := _RowsToScroll s;
     _ShowTabsInTitlebar := _ShowTabsInTitlebar s;
     _WordDelimiters := _WordDelimiters s;
     _CopyOnSelect := _CopyOnSelect s;
     _CopyFormatting := _CopyFormatting s;
     _InitialPosition := _InitialPosition s; _LaunchMode := _LaunchMode s;
     _SnapToGridOnResize := _SnapToGridOnResize s;
     _DebugFeatures := _DebugFeatures s |}.

Definition set_InitialCols (v : Z) (s : GlobalAppSettings)
  : GlobalAppSettings :=
  {| _keybindings := _keybindings s;
     _keybindingsWarnings := _keybindingsWarnings s;
     _DefaultProfile := _DefaultProfile s; _InitialRows := _InitialRows s;
     _InitialCols := v; _AlwaysShowTabs := _AlwaysShowTabs s;
     _ShowTitleInTitlebar := _ShowTitleInTitlebar s;
     _ConfirmCloseAllTabs := _ConfirmCloseAllTabs s; _Theme := _Theme s;
     _TabWidthMode := _TabWidthMode s; _RowsToScroll := _RowsToScroll s;
     _ShowTabsInTitlebar := _ShowTabsInTitlebar s;
     _WordDelimiters := _WordDelimiters s;
     _CopyOnSelect := _CopyOnSelect s;
     _CopyFormatting := _CopyFormatting s;
     _InitialPosition := _InitialPosition s; _LaunchMode := _LaunchMode s;
     _SnapToGridOnResize := _SnapToGridOnResize s;
     _DebugFeatures := _DebugFeatures s |}.

Definition set_AlwaysShowTabs (v : bool) (s : GlobalAppSettings)
  : GlobalAppSettings :=
  {| _keybindings := _keybindings s;
     _keybindingsWarnings := _keybindingsWarnings s;
     _DefaultProfile := _DefaultProfile s; _InitialRows := _InitialRows s;
     _InitialCols := _InitialCols s; _AlwaysShowTabs := v;
     _ShowTitleInTitlebar := _ShowTitleInTitlebar s;
     _ConfirmCloseAllTabs := _ConfirmCloseAllTabs s; _Theme := _Theme s;
     _TabWidthMode := _TabWidthMode s; _RowsToScroll := _RowsToScroll s;
     _ShowTabsInTitlebar := _ShowTabsInTitlebar s;
     _WordDelimiters := _WordDelimiters s;
     _CopyOnSelect := _CopyOnSelect s;
     _CopyFormatting := _CopyFormatting s;
     _InitialPosition := _InitialPosition s; _LaunchMode := _LaunchMode s;
     _SnapToGridOnResize := _SnapToGridOnResize s;
     _DebugFeatures := _DebugFeatures s |}.

Definition set_ShowTitleInTitlebar (v : bool) (s : GlobalAppSettings)
  : GlobalAppSettings :=
  {| _keybindings := _keybindings s;
     _keybindingsWarnings := _keybindingsWarnings s;
     _DefaultProfile := _DefaultProfile s; _InitialRows := _InitialRows s;
     _InitialCols := _InitialCols s; _AlwaysShowTabs := _AlwaysShowTabs s;
     _ShowTitleInTitlebar := v;
     _ConfirmCloseAllTabs := _ConfirmCloseAllTabs s; _Theme := _Theme s;
     _TabWidthMode := _TabWidthMode s; _RowsToScroll := _RowsToScroll s;
     _ShowTabsInTitlebar := _ShowTabsInTitlebar s;
     _WordDelimiters := _WordDelimiters s;
     _CopyOnSelect := _CopyOnSelect s;
     _CopyFormatting := _CopyFormatting s;
     _InitialPosition := _InitialPosition s; _LaunchMode := _LaunchMode s;
     _SnapToGridOnResize := _SnapToGridOnResize s;
     _DebugFeatures := _DebugFeatures s |}.

Definition set_ConfirmCloseAllTabs (v : bool) (s : GlobalAppSettings)
  : GlobalAppSettings :=
  {| _keybindings := _keybindings s;
     _keybindingsWarnings := _keybindingsWarnings s;
     _DefaultProfile := _DefaultProfile s; _InitialRows := _InitialRows s;
     _InitialCols := _InitialCols s; _AlwaysShowTabs := _AlwaysShowTabs s;
     _ShowTitleInTitlebar := _ShowTitleInTitlebar s;
     _ConfirmCloseAllTabs := v; _Theme := _Theme s;
     _TabWidthMode := _TabWidthMode s; _RowsToScroll := _RowsToScroll s;
     _ShowTabsInTitlebar := _ShowTabsInTitlebar s;
     _WordDelimiters := _WordDelimiters s;
     _CopyOnSelect := _CopyOnSelect s;
     _CopyFormatting := _CopyFormatting s;
     _InitialPosition := _InitialPosition s; _LaunchMode := _LaunchMode s;
     _SnapToGridOnResize := _SnapToGridOnResize s;
     _DebugFeatures := _DebugFeatures s |}.

Definition set_Theme (v : ElementTheme.t) (s : GlobalAppSettings)
  : GlobalAppSettings :=
  {| _keybindings := _keybindings s;
     _keybindingsWarnings := _keybindingsWarnings s;
     _DefaultProfile := _DefaultProfile s; _InitialRows := _InitialRows s;
     _InitialCols := _InitialCols s; _AlwaysShowTabs := _AlwaysShowTabs s;
     _ShowTitleInTitlebar := _ShowTitleInTitlebar s;
     _ConfirmCloseAllTabs := _ConfirmCloseAllTabs s; _Theme := v;
     _TabWidthMode := _TabWidthMode s; _RowsToScroll := _RowsToScroll s;
     _ShowTabsInTitlebar := _ShowTabsInTitlebar s;
     _WordDelimiters := _WordDelimiters s;
     _CopyOnSelect := _CopyOnSelect s;
     _CopyFormatting := _CopyFormatting s;
     _InitialPosition := _InitialPosition s; _LaunchMode := _LaunchMode s;
     _SnapToGridOnResize := _SnapToGridOnResize s;
     _DebugFeatures := _DebugFeatures s |}.

Definition set_TabWidthMode (v : TabViewWidthMode.t) (s : GlobalAppSettings)
  : GlobalAppSettings :=
  {| _keybindings := _keybindings s;
     _keybindingsWarnings := _keybindingsWarnings s;
     _DefaultProfile := _DefaultProfile s; _InitialRows := _InitialRows s;
     _InitialCols := _InitialCols s; _AlwaysShowTabs := _AlwaysShowTabs s;
     _ShowTitleInTitlebar := _ShowTitleInTitlebar s;
     _ConfirmCloseAllTabs := _ConfirmCloseAllTabs s; _Theme := _Theme s;
     _TabWidthMode := v; _RowsToScroll := _RowsToScroll s;
     _ShowTabsInTitlebar := _ShowTabsInTitlebar s;
     _WordDelimiters := _WordDelimiters s;
     _CopyOnSelect := _CopyOnSelect s;
     _CopyFormatting := _CopyFormatting s;
     _InitialPosition := _InitialPosition s; _LaunchMode := _LaunchMode s;
     _SnapToGridOnResize := _SnapToGridOnResize s;
     _DebugFeatures := _DebugFeatures s |}.

Definition set_RowsToScroll (v : Z) (s : GlobalAppSettings)
  : GlobalAppSettings :=
  {| _keybindings := _keybindings s;
     _keybindingsWarnings := _keybindingsWarnings s;
     _DefaultProfile := _DefaultProfile s; _InitialRows := _InitialRows s;
     _InitialCols := _InitialCols s; _AlwaysShowTabs := _AlwaysShowTabs s;
     _ShowTitleInTitlebar := _ShowTitleInTitlebar s;
     _ConfirmCloseAllTabs := _ConfirmCloseAllTabs s; _Theme := _Theme s;
     _TabWidthMode := _TabWidthMode s; _RowsToScroll := v;
     _ShowTabsInTitlebar := _ShowTabsInTitlebar s;
     _WordDelimiters := _WordDelimiters s;
     _CopyOnSelect := _CopyOnSelect s;
     _CopyFormatting := _CopyFormatting s;
     _InitialPosition := _InitialPosition s; _LaunchMode := _LaunchMode s;
     _SnapToGridOnResize := _SnapToGridOnResize s;
     _DebugFeatures := _DebugFeatures s |}.

Definition set_ShowTabsInTitlebar (v : bool) (s : GlobalAppSettings)
  : GlobalAppSettings :=
  {| _keybindings := _keybindings s;
     _keybindingsWarnings := _keybindingsWarnings s;
     _DefaultProfile := _DefaultProfile s; _InitialRows := _InitialRows s;
     _InitialCols := _InitialCols s; _AlwaysShowTabs := _AlwaysShowTabs s;
     _ShowTitleInTitlebar := _ShowTitleInTitlebar s;
     _ConfirmCloseAllTabs := _ConfirmCloseAllTabs s; _Theme := _Theme s;
     _TabWidthMode := _TabWidthMode s; _RowsToScroll := _RowsToScroll s;
     _ShowTabsInTitlebar := v; _WordDelimiters := _WordDelimiters s;
     _CopyOnSelect := _CopyOnSelect s;
     _CopyFormatting := _CopyFormatting s;
     _InitialPosition := _InitialPosition s; _LaunchMode := _LaunchMode s;
     _SnapToGridOnResize := _SnapToGridOnResize s;
     _DebugFeatures := _DebugFeatures s |}.

Definition set_WordDelimiters (v : wstring) (s : GlobalAppSettings)
  : GlobalAppSettings :=
  {| _keybindings := _keybindings s;
     _keybindingsWarnings := _keybindingsWarnings s;
     _DefaultProfile := _DefaultProfile s; _InitialRows := _InitialRows s;
     _InitialCols := _InitialCols s; _AlwaysShowTabs := _AlwaysShowTabs s;
     _ShowTitleInTitlebar := _ShowTitleInTitlebar s;
     _ConfirmCloseAllTabs := _ConfirmCloseAllTabs s; _Theme := _Theme s;
     _TabWidthMode := _TabWidthMode s; _RowsToScroll := _RowsToScroll s;
     _ShowTabsInTitlebar := _ShowTabsInTitlebar s; _WordDelimiters := v;
     _CopyOnSelect := _CopyOnSelect s;
     _CopyFormatting := _CopyFormatting s;
     _InitialPosition := _InitialPosition s; _LaunchMode := _LaunchMode s;
     _SnapToGridOnResize := _SnapToGridOnResize s;
     _DebugFeatures := _DebugFeatures s |}.

Definition set_CopyOnSelect (v : bool) (s : GlobalAppSettings)
  : GlobalAppSettings :=
  {| _keybindings := _keybindings s;
     _keybindingsWarnings := _keybindingsWarnings s;
     _DefaultProfile := _DefaultProfile s; _InitialRows := _InitialRows s;
     _InitialCols := _InitialCols s; _AlwaysShowTabs := _AlwaysShowTabs s;
     _ShowTitleInTitlebar := _ShowTitleInTitlebar s;
     _ConfirmCloseAllTabs := _ConfirmCloseAllTabs s; _Theme := _Theme s;
     _TabWidthMode := _TabWidthMode s; _RowsToScroll := _RowsToScroll s;
     _ShowTabsInTitlebar := _ShowTabsInTitlebar s;
     _WordDelimiters := _WordDelimiters s; _CopyOnSelect := v;
     _CopyFormatting := _CopyFormatting s;
     _InitialPosition := _InitialPosition s; _LaunchMode := _LaunchMode s;
     _SnapToGridOnResize := _SnapToGridOnResize s;
     _DebugFeatures := _DebugFeatures s |}.

Definition set_CopyFormatting (v : bool) (s : GlobalAppSettings)
  : GlobalAppSettings :=
  {| _keybindings := _keybindings s;
     _keybindingsWarnings := _keybindingsWarnings s;
     _DefaultProfile := _DefaultProfile s; _InitialRows := _InitialRows s;
     _InitialCols := _InitialCols s; _AlwaysShowTabs := _AlwaysShowTabs s;
     _ShowTitleInTitlebar := _ShowTitleInTitlebar s;
     _ConfirmCloseAllTabs := _ConfirmCloseAllTabs s; _Theme := _Theme s;
     _TabWidthMode := _TabWidthMode s; _RowsToScroll := _RowsToScroll s;
     _ShowTabsInTitlebar := _ShowTabsInTitlebar s;
     _WordDelimiters := _WordDelimiters s;
     _CopyOnSelect := _CopyOnSelect s; _CopyFormatting := v;
     _InitialPosition := _InitialPosition s; _LaunchMode := _LaunchMode s;
     _SnapToGridOnResize := _SnapToGridOnResize s;
     _DebugFeatures := _DebugFeatures s |}.

Definition set_InitialPosition (v : LaunchPosition) (s : GlobalAppSettings)
  : GlobalAppSettings :=
  {| _keybindings := _keybindings s;
     _keybindingsWarnings := _keybindingsWarnings s;
     _DefaultProfile := _DefaultProfile s; _InitialRows := _InitialRows s;
     _InitialCols := _InitialCols s; _AlwaysShowTabs := _AlwaysShowTabs s;
     _ShowTitleInTitlebar := _ShowTitleInTitlebar s;
     _ConfirmCloseAllTabs := _ConfirmCloseAllTabs s; _Theme := _Theme s;
     _TabWidthMode := _TabWidthMode s; _RowsToScroll := _RowsToScroll s;
     _ShowTabsInTitlebar := _ShowTabsInTitlebar s;
     _WordDelimiters := _WordDelimiters s;
     _CopyOnSelect := _CopyOnSelect s;
     _CopyFormatting := _CopyFormatting s; _InitialPosition := v;
     _LaunchMode := _LaunchMode s;
     _SnapToGridOnResize := _SnapToGridOnResize s;
     _DebugFeatures := _DebugFeatures s |}.

Definition set_LaunchMode (v : LaunchMode.t) (s : GlobalAppSettings)
  : GlobalAppSettings :=
  {| _keybindings := _keybindings s;
     _keybindingsWarnings := _keybindingsWarnings s;
     _DefaultProfile := _DefaultProfile s; _InitialRows := _InitialRows s;
     _InitialCols := _InitialCols s; _AlwaysShowTabs := _AlwaysShowTabs s;
     _ShowTitleInTitlebar := _ShowTitleInTitlebar s;
     _ConfirmCloseAllTabs := _ConfirmCloseAllTabs s; _Theme := _Theme s;
     _TabWidthMode := _TabWidthMode s; _RowsToScroll := _RowsToScroll s;
     _ShowTabsInTitlebar := _ShowTabsInTitlebar s;
     _WordDelimiters := _WordDelimiters s;
     _CopyOnSelect := _CopyOnSelect s;
     _CopyFormatting := _CopyFormatting s;
     _InitialPosition := _InitialPosition s; _LaunchMode := v;
     _SnapToGridOnResize := _SnapToGridOnResize s;
     _DebugFeatures := _DebugFeatures s |}.

Definition set_SnapToGridOnResize (v : bool) (s : GlobalAppSettings)
  : GlobalAppSettings :=
  {| _keybindings := _keybindings s;
     _keybindingsWarnings := _keybindingsWarnings s;
     _DefaultProfile := _DefaultProfile s; _InitialRows := _InitialRows s;
     _InitialCols := _InitialCols s; _AlwaysShowTabs := _AlwaysShowTabs s;
     _ShowTitleInTitlebar := _ShowTitleInTitlebar s;
     _ConfirmCloseAllTabs := _ConfirmCloseAllTabs s; _Theme := _Theme s;
     _TabWidthMode := _TabWidthMode s; _RowsToScroll := _RowsToScroll s;
     _ShowTabsInTitlebar := _ShowTabsInTitlebar s;
     _WordDelimiters := _WordDelimiters s;
     _CopyOnSelect := _CopyOnSelect s;
     _CopyFormatting := _CopyFormatting s;
     _InitialPosition := _InitialPosition s; _LaunchMode := _LaunchMode s;
     _SnapToGridOnResize := v; _DebugFeatures := _DebugFeatures s |}.

Definition set_DebugFeatures (v : bool) (s : GlobalAppSettings)
  : GlobalAppSettings :=
  {| _keybindings := _keybindings s;
     _keybindingsWarnings := _keybindingsWarnings s;
     _DefaultProfile := _DefaultProfile s; _InitialRows := _InitialRows s;
     _InitialCols := _InitialCols s; _AlwaysShowTabs := _AlwaysShowTabs s;
     _ShowTitleInTitlebar := _ShowTitleInTitlebar s;
     _ConfirmCloseAllTabs := _ConfirmCloseAllTabs s; _Theme := _Theme s;
     _TabWidthMode := _TabWidthMode s; _RowsToScroll := _RowsToScroll s;
     _ShowTabsInTitlebar := _ShowTabsInTitlebar s;
     _WordDelimiters := _WordDelimiters s;
     _CopyOnSelect := _CopyOnSelect s;
     _CopyFormatting := _CopyFormatting s;
     _InitialPosition := _InitialPosition s; _LaunchMode := _LaunchMode s;
     _SnapToGridOnResize := _SnapToGridOnResize s; _DebugFeatures := v |}.

(** [GlobalAppSettings::GlobalAppSettings()] with the initializers of the
    [GETSET_PROPERTY] declarations. *)
Definition GlobalAppSettings_ctor : GlobalAppSettings := {|
  _keybindings := make_AppKeyBindings;
  _keybindingsWarnings := [];
  _DefaultProfile := GUID_NULL;
  _InitialRows := DEFAULT_ROWS;
  _InitialCols := DEFAULT_COLS;
  _AlwaysShowTabs := true;
  _ShowTitleInTitlebar := true;
  _ConfirmCloseAllTabs := true;
  _Theme := ElementTheme.Default;
  _TabWidthMode := TabViewWidthMode.Equal;
  _RowsToScroll := DEFAULT_ROWSTOSCROLL;
  _ShowTabsInTitlebar := true;
  _WordDelimiters := DEFAULT_WORD_DELIMITERS;
  _CopyOnSelect := false;
  _CopyFormatting := false;
  _InitialPosition := {| x := None; y := None |};
  _LaunchMode := LaunchMode.DefaultMode;
  _SnapToGridOnResize := true;
  _DebugFeatures := debugFeaturesDefault
|}.

(** A call that takes the data member read by [get] by reference. *)
Definition on_member {T R} (get : GlobalAppSettings -> T)
    (set : T -> GlobalAppSettings -> GlobalAppSettings)
    (call : T -> outcome T R) : stmt GlobalAppSettings R :=
  fun s =>
    match call (get s) with
    | Returned v r => Returned (set v s) r
    | Thrown v e => Thrown (set v s) e
    end.

(** [if (auto rowsToScroll{ json[JsonKey(RowsToScrollKey)] }) ...] *)
Definition LayerJson_rowsToScroll (json : Json.Value) : stmt GlobalAppSettings unit :=
  fun s =>
    match Json.index json (JsonKey RowsToScrollKey) with
    | Throw e => Thrown s e
    | Ok rowsToScroll =>
        if Json.to_bool rowsToScroll then
          if Json.isInt rowsToScroll then
            match Json.asInt rowsToScroll with
            | Ok i => Returned (set_RowsToScroll i s) tt
            | Throw e => Thrown s e
            end
          else Returned (set_RowsToScroll 0 s) tt
        else Returned s tt
    end.

(** [if (auto keybindings{ json[JsonKey(KeybindingsKey)] }) ...] *)
Definition LayerJson_keybindings (json : Json.Value) : stmt GlobalAppSettings unit :=
  fun s =>
    match Json.index json (JsonKey KeybindingsKey) with
    | Throw e => Thrown s e
    | Ok keybindings =>
        if Json.to_bool keybindings then
          match AppKeyBindings_LayerJson keybindings (_keybindings s) with
          | Returned bindings warnings =>
              let s' := set_keybindings bindings s in
              Returned
                (set_keybindingsWarnings (_keybindingsWarnings s' ++ warnings) s') tt
          | Thrown bindings e => Thrown (set_keybindings bindings s) e
          end
        else Returned s tt
    end.

(** [void GlobalAppSettings::LayerJson(const Json::Value& json)] *)
Definition LayerJson (json : Json.Value) : stmt GlobalAppSettings unit :=
  on_member _DefaultProfile set_DefaultProfile (GetValueForKey json DefaultProfileKey) >>
  on_member _AlwaysShowTabs set_AlwaysShowTabs (GetValueForKey json AlwaysShowTabsKey) >>
  on_member _ConfirmCloseAllTabs set_ConfirmCloseAllTabs (GetValueForKey json ConfirmCloseAllKey) >>
  on_member _InitialRows set_InitialRows (GetValueForKey json InitialRowsKey) >>
  on_member _InitialCols set_InitialCols (GetValueForKey json InitialColsKey) >>
  LayerJson_rowsToScroll json >>
  on_member _InitialPosition set_InitialPosition (GetValueForKey json InitialPositionKey) >>
  on_member _ShowTitleInTitlebar set_ShowTitleInTitlebar (GetValueForKey json ShowTitleInTitlebarKey) >>
  on_member _ShowTabsInTitlebar set_ShowTabsInTitlebar (GetValueForKey json ShowTabsInTitlebarKey) >>
  on_member _WordDelimiters set_WordDelimiters (GetValueForKey json WordDelimitersKey) >>
  on_member _CopyOnSelect set_CopyOnSelect (GetValueForKey json CopyOnSelectKey) >>
  on_member _CopyFormatting set_CopyFormatting (GetValueForKey json CopyFormattingKey) >>
  on_member _LaunchMode set_LaunchMode (GetValueForKey json LaunchModeKey) >>
  on_member _Theme set_Theme (GetValueForKey json ThemeKey) >>
  on_member _TabWidthMode set_TabWidthMode (GetValueForKey json TabWidthModeKey) >>
  on_member _SnapToGridOnResize set_SnapToGridOnResize (GetValueForKey json SnapToGridOnResizeKey) >>
  on_member _DebugFeatures set_DebugFeatures (GetValueForKey json DebugFeaturesKey) >>
  LayerJson_keybindings json.

(** [GlobalAppSettings::FromJson] *)
Definition GlobalAppSettings_FromJson (json : Json.Value)
  : outcome GlobalAppSettings unit :=
  LayerJson json GlobalAppSettings_ctor.

End Settings.
End TerminalApp.

Import JsonUtils TerminalApp.

(** ** The members that [LayerJson] fills from a key

    The vocabulary of the layering properties: each member with its key,
    its type, and the conversion [LayerJson] applies to the document found
    under the key. *)

Module Field.
Variant t : Type :=
| DefaultProfile | AlwaysShowTabs | ConfirmCloseAllTabs | InitialRows
| InitialCols | RowsToScroll | InitialPosition | ShowTitleInTitlebar
| ShowTabsInTitlebar | WordDelimiters | CopyOnSelect | CopyFormatting
| LaunchMode | Theme | TabWidthMode | SnapToGridOnResize | DebugFeatures.

Definition all : list t :=
  [ DefaultProfile; AlwaysShowTabs; ConfirmCloseAllTabs; InitialRows;
    InitialCols; RowsToScroll; InitialPosition; ShowTitleInTitlebar;
    ShowTabsInTitlebar; WordDelimiters; CopyOnSelect; CopyFormatting;
    LaunchMode; Theme; TabWidthMode; SnapToGridOnResize; DebugFeatures ].

Definition key (f : t) : string :=
  match f with
  | DefaultProfile => DefaultProfileKey
  | AlwaysShowTabs => AlwaysShowTabsKey
  | ConfirmCloseAllTabs => ConfirmCloseAllKey
  | InitialRows => InitialRowsKey
  | InitialCols => InitialColsKey
  | RowsToScroll => RowsToScrollKey
  | InitialPosition => InitialPositionKey
  | ShowTitleInTitlebar => ShowTitleInTitlebarKey
  | ShowTabsInTitlebar => ShowTabsInTitlebarKey
  | WordDelimiters => WordDelimitersKey
  | CopyOnSelect => CopyOnSelectKey
  | CopyFormatting => CopyFormattingKey
  | LaunchMode => LaunchModeKey
  | Theme => ThemeKey
  | TabWidthMode => TabWidthModeKey
  | SnapToGridOnResize => SnapToGridOnResizeKey
  | DebugFeatures => DebugFeaturesKey
  end.

Section Members.
Context `{Externals}.

Definition type (f : t) : Type :=
  match f with
  | DefaultProfile => GUID
  | InitialRows | InitialCols | RowsToScroll => Z
  | InitialPosition => LaunchPosition
  | WordDelimiters => wstring
  | LaunchMode => LaunchMode.t
  | Theme => ElementTheme.t
  | TabWidthMode => TabViewWidthMode.t
  | AlwaysShowTabs | ConfirmCloseAllTabs | ShowTitleInTitlebar
  | ShowTabsInTitlebar | CopyOnSelect | CopyFormatting
  | SnapToGridOnResize | DebugFeatures => bool
  end.

Definition get (f : t) (s : GlobalAppSettings) : type f :=
  match f with
  | DefaultProfile => _DefaultProfile s
  | AlwaysShowTabs => _AlwaysShowTabs s
  | ConfirmCloseAllTabs => _ConfirmCloseAllTabs s
  | InitialRows => _InitialRows s
  | InitialCols => _InitialCols s
  | RowsToScroll => _RowsToScroll s
  | InitialPosition => _InitialPosition s
  | ShowTitleInTitlebar => _ShowTitleInTitlebar s
  | ShowTabsInTitlebar => _ShowTabsInTitlebar s
  | WordDelimiters => _WordDelimiters s
  | CopyOnSelect => _CopyOnSelect s
  | CopyFormatting => _CopyFormatting s
  | LaunchMode => _LaunchMode s
  | Theme => _Theme s
  | TabWidthMode => _TabWidthMode s
  | SnapToGridOnResize => _SnapToGridOnResize s
  | DebugFeatures => _DebugFeatures s
  end.

(** The manual conversion of [rowsToScroll]. *)
Definition rowsToScroll_value (json : Json.Value) : result Z :=
  if Json.isInt json then Json.asInt json else Ok 0.

(** The converted value of a document for a member: [FromJson] of the
    member's type, and the manual conversion for [rowsToScroll]. *)
Definition convert (f : t) : Json.Value -> result (type f) :=
  match f with
  | DefaultProfile => FromJson (T := GUID)
  | AlwaysShowTabs => FromJson (T := bool)
  | ConfirmCloseAllTabs => FromJson (T := bool)
  | InitialRows => FromJson (T := Z)
  | InitialCols => FromJson (T := Z)
  | RowsToScroll => rowsToScroll_value
  | InitialPosition => FromJson (T := LaunchPosition)
  | ShowTitleInTitlebar => FromJson (T := bool)
  | ShowTabsInTitlebar => FromJson (T := bool)
  | WordDelimiters => FromJson (T := wstring)
  | CopyOnSelect => FromJson (T := bool)
  | CopyFormatting => FromJson (T := bool)
  | LaunchMode => FromJson (T := LaunchMode.t)
  | Theme => FromJson (T := ElementTheme.t)
  | TabWidthMode => FromJson (T := TabViewWidthMode.t)
  | SnapToGridOnResize => FromJson (T := bool)
  | DebugFeatures => FromJson (T := bool)
  end.

End Members.
End Field.

(** The document a key gives a value with: the member under the key,
    unless it is [null]. *)
Definition given (m : gmap string Json.Value) (key : string) : option Json.Value :=
  match m !! key with
  | Some v => if Json.isNull v then None else Some v
  | None => None
  end.

(** Every key [LayerJson] looks up. *)
Definition known_keys : list string :=
  KeybindingsKey :: map Field.key Field.all.

(** One choice of the externals, to run the code on documents: GUIDs,
    colours and wide strings are kept as the text they are parsed from,
    and there are no key bindings. *)
Definition plain_externals : Externals := {|
  GUID := string;
  GUID_NULL := "";
  GuidFromString s := Ok s;
  color := string;
  ColorFromHexString s := Ok s;
  wstring := string;
  u8u16 s := Ok s;
  valueToString := fun _ => "";
  hresult_message := fun _ => "";
  DEFAULT_ROWS := 30;
  DEFAULT_COLS := 120;
  DEFAULT_ROWSTOSCROLL := 0;
  DEFAULT_WORD_DELIMITERS := " ";
  _DEBUG := false;
  SettingsLoadWarnings := unit;
  AppKeyBindings := unit;
  make_AppKeyBindings := tt;
  AppKeyBindings_LayerJson := fun _ bindings => Returned bindings []
|}.

(** A token without a comma, the delimiter of the launch position. *)
Fixpoint comma_free (token : string) : bool :=
  match token with
  | EmptyString => true
  | String c rest => negb (Ascii.eqb c singleCharDelim) && comma_free rest
  end.

(** A token in which no number starts: after the leading white space and
    one optional sign there is no decimal digit.  The empty token is one.
    A token that a number starts is none, whatever follows the number:
    [12abc] and [1.5] are no numbers, and are not of these tokens. *)
Definition non_numeric (token : string) : bool :=
  match skip_spaces token with
  | String c rest =>
      if Ascii.eqb c "-" || Ascii.eqb c "+" then
        match rest with
        | String d _ => negb (isdigit d)
        | EmptyString => true
        end
      else negb (isdigit c)
  | EmptyString => true
  end.

(** A tail at which [std::stoi] stops reading a number: it is empty or
    goes on with a character that is no decimal digit. *)
Definition stops_number (tail : string) : bool :=
  match tail with
  | String d _ => negb (isdigit d)
  | EmptyString => true
  end.

(** After a call on [target]: either the call returned true and the target
    is a value that [converted] describes, or the target is what it was. *)
Definition replaced_or_kept {T : Type} (target : T) (converted : T -> Prop)
    (o : outcome T bool) : Prop :=
  match o with
  | Returned target' true => converted target'
  | Returned target' false => target' = target
  | Thrown target' _ => target' = target
  end.

(** What a [std::optional] target holds after a successful [GetValue]. *)
Definition optional_converted {T : Type} `{ConversionTrait T}
    (json : Json.Value) (target' : option T) : Prop :=
  (Json.isNull json = true /\ target' = None) \/
  (exists v, FromJson json = Ok v /\ target' = Some v).


(** ** Further members of [GlobalAppSettings] and of JsonUtils.h *)

(** [Json::Value GlobalAppSettings::ToJson() const]:
    [return Json::Value::nullSingleton();] *)
Definition GlobalAppSettings_ToJson `{Externals} (s : GlobalAppSettings)
  : Json.Value := Json.nullValue.

(** [GlobalAppSettings::GetKeybindingsWarnings], a copy of the member. *)
Definition GetKeybindingsWarnings `{Externals} (s : GlobalAppSettings)
  : list SettingsLoadWarnings := _keybindingsWarnings s.

(** [GlobalAppSettings::GetKeybindings] *)
Definition GetKeybindings `{Externals} (s : GlobalAppSettings)
  : AppKeyBindings := _keybindings s.

(** A target passed by reference to [GetValuesForKeys]: an object of some
    type inside the state [S], with the overload of [GetValue] for it. *)
Record reference (S : Type) : Type := {
  ref_type : Type;
  ref_overload : GetValueFor ref_type;
  ref_get : S -> ref_type;
  ref_set : ref_type -> S -> S
}.
Arguments ref_type {S} r.
Arguments ref_overload {S} r.
Arguments ref_get {S} r.
Arguments ref_set {S} r.

(** A call that takes the referenced object. *)
Definition on_reference {S R : Type} (r : reference S)
    (call : ref_type r -> outcome (ref_type r) R) : stmt S R :=
  fun s =>
    match call (ref_get r s) with
    | Returned v x => Returned (ref_set r v s) x
    | Thrown v e => Thrown (ref_set r v s) e
    end.

(** [GetValuesForKeys(json, key1, val1, args...)]: [GetValueForKey] on
    the first pair, then the same on the rest; nothing for no pair. *)
Fixpoint GetValuesForKeys {S : Type} (json : Json.Value)
    (args : list (string * reference S)) : stmt S unit :=
  match args with
  | [] => fun s => Returned s tt
  | (key1, val1) :: args' =>
      on_reference val1
        (GetValueForKey (H := ref_overload val1) json key1) >>
      GetValuesForKeys json args'
  end.

(** [bool Value::isObject() const] *)
Definition isObject (v : Json.Value) : bool :=
  match v with Json.objectValue _ => true | _ => false end.

(** What [find], and with it [operator[]], throws on a value that is
    neither an object nor null. *)
Definition find_requires_object : exception :=
  LogicError
    "in Json::Value::find(key, end, found): requires objectValue or nullValue".

(** ** The statements of [LayerJson], member by member *)

(** A statement whose result is dropped. *)
Definition done {S : Type} : stmt S unit := fun s => Returned s tt.

Section Statements.
Context `{Externals}.

(** The statement of [LayerJson] that fills a member. *)
Definition layer_member (f : Field.t) (json : Json.Value)
  : stmt GlobalAppSettings unit :=
  match f with
  | Field.DefaultProfile =>
      on_member _DefaultProfile set_DefaultProfile
        (GetValueForKey json DefaultProfileKey) >> done
  | Field.AlwaysShowTabs =>
      on_member _AlwaysShowTabs set_AlwaysShowTabs
        (GetValueForKey json AlwaysShowTabsKey) >> done
  | Field.ConfirmCloseAllTabs =>
      on_member _ConfirmCloseAllTabs set_ConfirmCloseAllTabs
        (GetValueForKey json ConfirmCloseAllKey) >> done
  | Field.InitialRows =>
      on_member _InitialRows set_InitialRows
        (GetValueForKey json InitialRowsKey) >> done
  | Field.InitialCols =>
      on_member _InitialCols set_InitialCols
        (GetValueForKey json InitialColsKey) >> done
  | Field.RowsToScroll => LayerJson_rowsToScroll json
  | Field.InitialPosition =>
      on_member _InitialPosition set_InitialPosition
        (GetValueForKey json InitialPositionKey) >> done
  | Field.ShowTitleInTitlebar =>
      on_member _ShowTitleInTitlebar set_ShowTitleInTitlebar
        (GetValueForKey json ShowTitleInTitlebarKey) >> done
  | Field.ShowTabsInTitlebar =>
      on_member _ShowTabsInTitlebar set_ShowTabsInTitlebar
        (GetValueForKey json ShowTabsInTitlebarKey) >> done
  | Field.WordDelimiters =>
      on_member _WordDelimiters set_WordDelimiters
        (GetValueForKey json WordDelimitersKey) >> done
  | Field.CopyOnSelect =>
      on_member _CopyOnSelect set_CopyOnSelect
        (GetValueForKey json CopyOnSelectKey) >> done
  | Field.CopyFormatting =>
      on_member _CopyFormatting set_CopyFormatting
        (GetValueForKey json CopyFormattingKey) >> done
  | Field.LaunchMode =>
      on_member _LaunchMode set_LaunchMode
        (GetValueForKey json LaunchModeKey) >> done
  | Field.Theme =>
      on_member _Theme set_Theme (GetValueForKey json ThemeKey) >> done
  | Field.TabWidthMode =>
      on_member _TabWidthMode set_TabWidthMode
        (GetValueForKey json TabWidthModeKey) >> done
  | Field.SnapToGridOnResize =>
      on_member _SnapToGridOnResize set_SnapToGridOnResize
        (GetValueForKey json SnapToGridOnResizeKey) >> done
  | Field.DebugFeatures =>
      on_member _DebugFeatures set_DebugFeatures
        (GetValueForKey json DebugFeaturesKey) >> done
  end.

(** The statements of the members [fs], in that order, then [last]. *)
Fixpoint layer_members (fs : list Field.t) (json : Json.Value)
    (last : stmt GlobalAppSettings unit) : stmt GlobalAppSettings unit :=
  match fs with
  | [] => last
  | f :: fs' => layer_member f json >> layer_members fs' json last
  end.

(** [CanConvert] of the member's type; [rowsToScroll] takes any document. *)
Definition can_convert (f : Field.t) : Json.Value -> bool :=
  match f with
  | Field.DefaultProfile => CanConvert (T := GUID)
  | Field.InitialRows | Field.InitialCols => CanConvert (T := Z)
  | Field.RowsToScroll => fun _ => true
  | Field.InitialPosition => CanConvert (T := LaunchPosition)
  | Field.WordDelimiters => CanConvert (T := wstring)
  | Field.LaunchMode => CanConvert (T := LaunchMode.t)
  | Field.Theme => CanConvert (T := ElementTheme.t)
  | Field.TabWidthMode => CanConvert (T := TabViewWidthMode.t)
  | Field.AlwaysShowTabs | Field.ConfirmCloseAllTabs
  | Field.ShowTitleInTitlebar | Field.ShowTabsInTitlebar
  | Field.CopyOnSelect | Field.CopyFormatting
  | Field.SnapToGridOnResize | Field.DebugFeatures => CanConvert (T := bool)
  end.

(** What a call of [LayerJson] that got past a member has done to it. *)
Definition layered (m : gmap string Json.Value) (f : Field.t)
    (s s' : GlobalAppSettings) : Prop :=
  match given m (Field.key f) with
  | Some found => Field.convert f found = Ok (Field.get f s')
  | None => Field.get f s' = Field.get f s
  end.

End Statements.

(** A conversion that returns on every document [CanConvert] accepts. *)
Definition total {T : Type} (trait : ConversionTrait T) : Prop :=
  forall json, CanConvert json = true -> exists v, FromJson json = Ok v.

(** The values of a C++ [int]. *)
Definition is_int (i : Z) : Prop := INT_MIN <= i <= INT_MAX.


Section Stopped.
Context `{Externals}.

(** [LayerJson] stopped at the member [f], whose conversion threw: the
    members before it are filled, it and the members after it are as they
    were, and so are the key bindings and their warnings. *)
Definition stopped_at_member (m : gmap string Json.Value)
    (s s' : GlobalAppSettings) (e : exception) : Prop :=
  exists before f after found inner,
    Field.all = (before ++ f :: after)%list /\
    given m (Field.key f) = Some found /\
    e = KeyedException (Field.key f) inner /\
    ((can_convert f found = false /\ inner = TypeMismatchException) \/
     (can_convert f found = true /\ Field.convert f found = Throw inner)) /\
    (forall g, In g before -> layered m g s s') /\
    (forall g, In g (f :: after) -> Field.get g s' = Field.get g s) /\
    _keybindings s' = _keybindings s /\
    _keybindingsWarnings s' = _keybindingsWarnings s.

(** [LayerJson] stopped in the [LayerJson] of the key bindings: every
    member is filled, and no warning has been added. *)
Definition stopped_at_keybindings (m : gmap string Json.Value)
    (s s' : GlobalAppSettings) (e : exception) : Prop :=
  exists keybindings,
    given m KeybindingsKey = Some keybindings /\
    AppKeyBindings_LayerJson keybindings (_keybindings s)
      = Thrown (_keybindings s') e /\
    (forall g, layered m g s s') /\
    _keybindingsWarnings s' = _keybindingsWarnings s.

End Stopped.

(** The integers a [Json::Value] can hold: [intValue] a signed and
    [uintValue] an unsigned 64 bit integer. *)
Definition representable (v : Json.Value) : Prop :=
  match v with
  | Json.intValue i => - 2 ^ 63 <= i < 2 ^ 63
  | Json.uintValue u => 0 <= u < 2 ^ 64
  | _ => True
  end.

(** A real document whose value is the integer [v]. *)
Definition real_is (d : spec_float) (v : Z) : Prop :=
  match Json.fraction d with
  | Some (n, q) => n = v * q
  | None => False
  end.

(** A launch position whose coordinates are values of an [int]. *)
Definition position_is_int (p : LaunchPosition) : Prop :=
  (forall n, x p = Some n -> is_int n) /\ (forall n, y p = Some n -> is_int n).

(** Settings whose [int] members hold values of an [int]. *)
Definition ints_in_range `{Externals} (s : GlobalAppSettings) : Prop :=
  is_int (_InitialRows s) /\ is_int (_InitialCols s) /\
  is_int (_RowsToScroll s) /\ position_is_int (_InitialPosition s).

(** A target that is the whole state: the reference to a variable of its
    own. *)
Definition variable {T : Type} `{GetValueFor T} : reference T := {|
  ref_type := T;
  ref_overload := _;
  ref_get := fun s => s;
  ref_set := fun v _ => v
|}.

(** ** Documents to run the code on *)

Definition rows_50 : gmap string Json.Value :=
  {[ "initialRows" := Json.intValue 50 ]}.

Definition cols_100 : gmap string Json.Value :=
  {[ "initialCols" := Json.intValue 100 ]}.


Definition rows_oops : gmap string Json.Value :=
  <[ "alwaysShowTabs" := Json.booleanValue false ]>
    (<[ "initialRows" := Json.stringValue "oops" ]>
       {[ "initialCols" := Json.intValue 80 ]}).

Definition with_keybindings : gmap string Json.Value :=
  {[ "keybindings" := Json.arrayValue [] ]}.

(** * Properties *)

(** ** The two overloads of [GetValue] *)

Section GetValue.
Context {T : Type} `{ConversionTrait T}.

Lemma GetValue_null (json : Json.Value) (target : T) :
  Json.isNull json = true -> GetValue json target = Returned target false.
Proof.
  intros Hnull. unfold GetValue, Json.to_bool. now rewrite Hnull.
Qed.

Lemma GetValue_mismatch (json : Json.Value) (target : T) :
  Json.isNull json = false -> CanConvert json = false ->
  GetValue json target = Thrown target TypeMismatchException.
Proof.
  intros Hnull Hcan. unfold GetValue, Json.to_bool. now rewrite Hnull, Hcan.
Qed.

Lemma GetValue_converted (json : Json.Value) (target v : T) :
  Json.isNull json = false -> CanConvert json = true -> FromJson json = Ok v ->
  GetValue json target = Returned v true.
Proof.
  intros Hnull Hcan Hv. unfold GetValue, Json.to_bool.
  now rewrite Hnull, Hcan, Hv.
Qed.

(** [CanConvert] looks at the kind of the document only: [FromJson] may
    still throw, and then [GetValue] lets the exception through. *)
Lemma GetValue_FromJson_throws (json : Json.Value) (target : T) (e : exception) :
  Json.isNull json = false -> CanConvert json = true -> FromJson json = Throw e ->
  GetValue json target = Thrown target e.
Proof.
  intros Hnull Hcan He. unfold GetValue, Json.to_bool.
  now rewrite Hnull, Hcan, He.
Qed.

(** Whatever the document, [GetValue] ends in one of three ways. *)
Lemma GetValue_inv (json : Json.Value) (target : T) :
  (GetValue json target = Returned target false /\ Json.isNull json = true) \/
  (exists e, GetValue json target = Thrown target e /\ Json.isNull json = false) \/
  (exists v, GetValue json target = Returned v true /\ Json.isNull json = false /\
             CanConvert json = true /\ FromJson json = Ok v).
Proof.
  unfold GetValue, Json.to_bool.
  destruct (Json.isNull json); cbn; [now left | right].
  destruct (CanConvert json); cbn; [| left; eauto].
  destruct (FromJson json) as [v | e]; [right | left]; eauto.
Qed.

Context `{ValueInit T}.

Lemma GetValue_optional_null (json : Json.Value) (target : option T) :
  Json.isNull json = true -> GetValue_optional json target = Returned None true.
Proof.
  intros Hnull. unfold GetValue_optional. now rewrite Hnull.
Qed.

Lemma GetValue_optional_inv (json : Json.Value) (target : option T) :
  (GetValue_optional json target = Returned None true /\ Json.isNull json = true) \/
  (exists e, GetValue_optional json target = Thrown target e /\
             Json.isNull json = false) \/
  (exists v, GetValue_optional json target = Returned (Some v) true /\
             Json.isNull json = false /\ CanConvert json = true /\
             FromJson json = Ok v).
Proof.
  unfold GetValue_optional.
  destruct (Json.isNull json) eqn:Hnull; [now left | right].
  unfold get_value, GetValueFor_T.
  destruct (GetValue_inv json value_init)
    as [[_ Hn] | [(e & -> & _) | (v & -> & _ & Hcan & Hv)]].
  - congruence.
  - left; eauto.
  - right; eauto.
Qed.

End GetValue.

(** What [GetValueForKey] does with the member that [find] gives. *)
Lemma GetValueForKey_found {T} `{GetValueFor T} (json found : Json.Value)
    (key : string) (target : T) :
  Json.find json key = Ok (Some found) ->
  GetValueForKey json key target =
    match get_value found target with
    | Returned target' b => Returned target' b
    | Thrown target' e => Thrown target' (KeyedException key e)
    end.
Proof.
  intros Hfind. unfold GetValueForKey. now rewrite Hfind.
Qed.

Lemma GetValueForKey_missing {T} `{GetValueFor T} (json : Json.Value)
    (key : string) (target : T) :
  Json.find json key = Ok None ->
  GetValueForKey json key target = Returned target false.
Proof.
  intros Hfind. unfold GetValueForKey. now rewrite Hfind.
Qed.

(** C2, as the claim states it, fails where [CanConvert] accepts a document
    on which [FromJson] throws: [ConversionTrait<unsigned int>] accepts
    what [isInt] accepts and converts with [asUInt], so on the integer -1,
    which is not null, [GetValue] neither returns true nor throws
    [TypeMismatchException]; it lets the [LogicError] of [asUInt] out and
    leaves the target as it was. *)
Lemma GetValue_convertible_throws :
  Json.isNull (Json.intValue (-1)) = false /\
  CanConvert (T := N) (Json.intValue (-1)) = true /\
  GetValue (T := N) (Json.intValue (-1)) 7%N =
    Thrown 7%N (LogicError "LargestInt out of UInt range").
Proof. repeat split. Qed.

(** C2, amended.  For every type [T] with a [ConversionTrait] and every
    document: on a null document [GetValue] returns false and leaves the
    target as it was; on a document that is not null and that [CanConvert]
    rejects it throws [TypeMismatchException] and leaves the target as it
    was; on a document that is not null and that [CanConvert] accepts it
    assigns to the target the value [FromJson] returns and returns true,
    and when [FromJson] throws instead it lets that exception out and
    leaves the target as it was. *)
Theorem GetValue_cases {T : Type} `{ConversionTrait T}
    (json : Json.Value) (target : T) :
  (Json.isNull json = true ->
     GetValue json target = Returned target false) /\
  (Json.isNull json = false -> CanConvert json = false ->
     GetValue json target = Thrown target TypeMismatchException) /\
  (Json.isNull json = false -> CanConvert json = true ->
     (forall v, FromJson json = Ok v ->
        GetValue json target = Returned v true) /\
     (forall e, FromJson json = Throw e ->
        GetValue json target = Thrown target e)).
Proof.
  split; [| split].
  - apply GetValue_null.
  - apply GetValue_mismatch.
  - intros Hnull Hcan. split.
    + intros v Hv. now apply GetValue_converted.
    + intros e He. now apply GetValue_FromJson_throws.
Qed.

Lemma GetValue_cases_witness :
  GetValue Json.nullValue 7 = Returned 7 false /\
  GetValue (Json.stringValue "oops") 7 = Thrown 7 TypeMismatchException /\
  GetValue (Json.intValue 5) 7 = Returned 5 true /\
  GetValue (T := N) (Json.intValue (-5)) 7%N =
    Thrown 7%N (LogicError "LargestInt out of UInt range").
Proof.
  split; [| split; [| split]].
  - apply (proj1 (GetValue_cases Json.nullValue 7)). reflexivity.
  - apply (proj1 (proj2 (GetValue_cases (Json.stringValue "oops") 7)));
      reflexivity.
  - apply (proj2 (proj2 (GetValue_cases (Json.intValue 5) 7)));
      reflexivity.
  - apply (proj2 (proj2 (GetValue_cases (Json.intValue (-5)) 7%N)));
      reflexivity.
Defined.

(** C3, as the claim states it, fails in the same place: on the integer
    -1, which is present and which [CanConvert] accepts, the overload for
    [std::optional<unsigned int>] does not set the target and return true;
    [asUInt] throws, and the target keeps the value it had. *)
Lemma GetValue_optional_convertible_throws :
  Json.isNull (Json.intValue (-1)) = false /\
  CanConvert (T := N) (Json.intValue (-1)) = true /\
  GetValue_optional (TOpt := N) (Json.intValue (-1)) (Some 3%N) =
    Thrown (Some 3%N) (LogicError "LargestInt out of UInt range").
Proof. repeat split. Qed.

(** C3, amended.  The overload of [GetValue] for [std::optional]: a null
    document sets the target to [nullopt] and returns true; a document
    that is present and that [CanConvert] accepts sets the target to the
    value [FromJson] returns and returns true, and when [FromJson] throws
    instead that exception is let out and the target is left as it was;
    and [GetValueForKey] leaves the target, engaged or not, as it was when
    the object has no member under the key. *)
Theorem GetValue_optional_cases {T : Type} `{ConversionTrait T} `{ValueInit T}
    (json : Json.Value) (target : option T) :
  (Json.isNull json = true ->
     GetValue_optional json target = Returned None true) /\
  (Json.isNull json = false -> CanConvert json = true ->
     (forall v, FromJson json = Ok v ->
        GetValue_optional json target = Returned (Some v) true) /\
     (forall e, FromJson json = Throw e ->
        GetValue_optional json target = Thrown target e)) /\
  (forall (m : gmap string Json.Value) (key : string), m !! key = None ->
     GetValueForKey (Json.objectValue m) key target = Returned target false).
Proof.
  split; [| split].
  - apply GetValue_optional_null.
  - intros Hnull Hcan. unfold GetValue_optional. rewrite Hnull.
    unfold get_value, GetValueFor_T. split.
    + intros v Hv.
      now rewrite (GetValue_converted json value_init v Hnull Hcan Hv).
    + intros e He.
      now rewrite (GetValue_FromJson_throws json value_init e Hnull Hcan He).
  - intros m key Hkey. apply GetValueForKey_missing. cbn. now rewrite Hkey.
Qed.

Lemma GetValue_optional_cases_witness :
  GetValue_optional Json.nullValue (Some 3) = Returned None true /\
  GetValue_optional (Json.intValue 4) None = Returned (Some 4) true /\
  GetValue_optional (TOpt := N) (Json.intValue (-4)) None =
    Thrown None (LogicError "LargestInt out of UInt range") /\
  GetValueForKey (Json.objectValue {[ "initialCols" := Json.intValue 80 ]})
    "initialRows" (Some 3) = Returned (Some 3) false.
Proof.
  split; [| split; [| split]].
  - apply (proj1 (GetValue_optional_cases Json.nullValue (Some 3))).
    reflexivity.
  - apply (proj1 (proj2 (GetValue_optional_cases (Json.intValue 4) None)));
      reflexivity.
  - apply (proj1 (proj2
                   (GetValue_optional_cases (T := N) (Json.intValue (-4)) None)));
      reflexivity.
  - apply (proj2 (proj2 (GetValue_optional_cases Json.nullValue (Some 3)))).
    vm_compute. reflexivity.
Defined.

(** ** Enum conversion *)

Section KeyValueMapper.
Context {T : Type}.

Lemma mappings_scan_first (before after : list (pair_type T)) (name : string) (v : T) :
  (forall p, In p before -> fst p <> name) ->
  mappings_scan (before ++ (name, v) :: after)%list name = Some v.
Proof.
  induction before as [| p before IH]; intros Hbefore; cbn.
  - now rewrite String.eqb_refl.
  - destruct (String.eqb_spec (fst p) name) as [Heq | _].
    + exfalso. apply (Hbefore p); [now left | exact Heq].
    + apply IH. intros q Hq. apply Hbefore. now right.
Qed.

Lemma mappings_scan_none (pairs : list (pair_type T)) (name : string) :
  (forall p, In p pairs -> fst p <> name) ->
  mappings_scan pairs name = None.
Proof.
  induction pairs as [| p pairs IH]; intros Hpairs; cbn; [reflexivity |].
  destruct (String.eqb_spec (fst p) name) as [Heq | _].
  - exfalso. apply (Hpairs p); [now left | exact Heq].
  - apply IH. intros q Hq. apply Hpairs. now right.
Qed.

End KeyValueMapper.

(** C4. Enum conversion of a string document, for every list of mappings:
    the result is the value of the first pair whose name is the string,
    character for character; when no pair has that name it is the value of
    pair 0, and the conversion does not fail.  The theme ["blue"] gives
    [ElementTheme::Default], and so does ["Light"], which differs from
    ["light"] by case. *)
Theorem KeyValueMapper_first_match_or_default {T : Type}
    (a : mappings_array T) (name : string) :
  (forall before after v,
     mappings a = (before ++ (name, v) :: after)%list ->
     (forall p, In p before -> fst p <> name) ->
     FromJson (ConversionTrait := KeyValueMapper a) (Json.stringValue name) = Ok v) /\
  ((forall p, In p (mappings a) -> fst p <> name) ->
     FromJson (ConversionTrait := KeyValueMapper a) (Json.stringValue name)
       = Ok (snd (mappings_0 a))) /\
  FromJson (T := ElementTheme.t) (Json.stringValue "blue") = Ok ElementTheme.Default /\
  FromJson (T := ElementTheme.t) (Json.stringValue "Light") = Ok ElementTheme.Default /\
  FromJson (T := ElementTheme.t) (Json.stringValue "light") = Ok ElementTheme.Light.
Proof.
  split; [| split; [| repeat split]].
  - intros before after v Hsplit Hbefore.
    cbn [FromJson KeyValueMapper]. unfold KeyValueMapper_FromJson.
    cbn [Detail.GetStringView Json.getString]. rewrite Hsplit.
    now rewrite mappings_scan_first.
  - intros Hnone.
    cbn [FromJson KeyValueMapper]. unfold KeyValueMapper_FromJson.
    cbn [Detail.GetStringView Json.getString].
    now rewrite mappings_scan_none.
Qed.

Lemma KeyValueMapper_first_match_or_default_witness :
  FromJson (T := ElementTheme.t) (Json.stringValue "dark") = Ok ElementTheme.Dark /\
  FromJson (T := ElementTheme.t) (Json.stringValue "DARK") = Ok ElementTheme.Default.
Proof.
  split.
  - apply (proj1 (KeyValueMapper_first_match_or_default ElementTheme_mappings "dark")
             [ (SystemThemeValue, ElementTheme.Default);
               (LightThemeValue, ElementTheme.Light) ] [] ElementTheme.Dark).
    + reflexivity.
    + intros p [<- | [<- | []]]; discriminate.
  - apply (proj1 (proj2
             (KeyValueMapper_first_match_or_default ElementTheme_mappings "DARK"))).
    intros p [<- | [<- | [<- | []]]]; discriminate.
Defined.

(** ** Keyed extraction *)

(** C5. When [GetValueForKey] finds the key and the conversion throws,
    whatever the exception [e], it throws [KeyedException] made from the
    key and [e], whose [what()] names the key and gives [e.what()].  For
    the key ["initialRows"] with the string ["oops"] and an integer target
    the exception holds ["initialRows"] and [TypeMismatchException], and
    reads [error parsing "initialRows": invalid type]. *)
Theorem GetValueForKey_wraps :
  (forall (T : Type) (overload : GetValueFor T) (m : gmap string Json.Value)
          (key : string) (found : Json.Value) (target target' : T) (e : exception),
     m !! key = Some found ->
     get_value found target = Thrown target' e ->
     GetValueForKey (Json.objectValue m) key target
       = Thrown target' (KeyedException key e) /\
     what (KeyedException key e)
       = c_str ("error parsing " ++ dquote ++ key ++ dquote ++ ": " ++ what e)) /\
  (forall target : Z,
     GetValueForKey
       (Json.objectValue {[ "initialRows" := Json.stringValue "oops" ]})
       InitialRowsKey target
       = Thrown target (KeyedException "initialRows" TypeMismatchException)) /\
  what (KeyedException "initialRows" TypeMismatchException)
    = "error parsing " ++ dquote ++ "initialRows" ++ dquote ++ ": invalid type".
Proof.
  split; [| split].
  - intros T overload m key found target target' e Hkey Hthrown. split.
    + rewrite (GetValueForKey_found _ found) by (cbn; now rewrite Hkey).
      now rewrite Hthrown.
    + reflexivity.
  - intros target.
    rewrite (GetValueForKey_found _ (Json.stringValue "oops")) by reflexivity.
    reflexivity.
  - reflexivity.
Qed.

Lemma GetValueForKey_wraps_witness :
  GetValueForKey (Json.objectValue {[ "copyOnSelect" := Json.intValue 1 ]})
    "copyOnSelect" false
    = Thrown false (KeyedException "copyOnSelect" TypeMismatchException).
Proof.
  apply (proj1 GetValueForKey_wraps bool _
           {[ "copyOnSelect" := Json.intValue 1 ]} "copyOnSelect"
           (Json.intValue 1) false false TypeMismatchException);
    reflexivity.
Defined.

Section Atomic.
Context {T : Type}.

Lemma GetValueForKey_replaced_or_kept `{GetValueFor T}
    (converted : Json.Value -> T -> Prop) :
  (forall json target, replaced_or_kept target (converted json) (get_value json target)) ->
  forall json key target,
    replaced_or_kept target
      (fun target' => exists found,
         Json.find json key = Ok (Some found) /\ converted found target')
      (GetValueForKey json key target).
Proof.
  intros Hget json key target. unfold GetValueForKey.
  destruct (Json.find json key) as [[found |] | e]; cbn; try reflexivity.
  specialize (Hget found target).
  destruct (get_value found target) as [target' [|] | target' e]; cbn in *; eauto.
Qed.

End Atomic.

(** C7. Conversion never leaves a target half-written.  For both overloads
    of [GetValue] and for [GetValueForKey] on either: when the call fails,
    by returning false (the key is absent, or the document is null on the
    primitive path) or by throwing ([CanConvert] is false, or the
    conversion itself throws), the target holds the value it had; when the
    call returns true the target holds the converted value. *)
Theorem conversion_replaces_or_keeps {T : Type} `{ConversionTrait T} `{ValueInit T}
    (json : Json.Value) (key : string) (target : T) (optional : option T) :
  replaced_or_kept target (fun target' => FromJson json = Ok target')
    (GetValue json target) /\
  replaced_or_kept optional (optional_converted json)
    (GetValue_optional json optional) /\
  replaced_or_kept target
    (fun target' => exists found,
       Json.find json key = Ok (Some found) /\ FromJson found = Ok target')
    (GetValueForKey json key target) /\
  replaced_or_kept optional
    (fun target' => exists found,
       Json.find json key = Ok (Some found) /\ optional_converted found target')
    (GetValueForKey json key optional).
Proof.
  assert (Hprimitive : forall j (t : T),
            replaced_or_kept t (fun t' => FromJson j = Ok t') (get_value j t)).
  { intros j t. unfold get_value, GetValueFor_T.
    destruct (GetValue_inv j t)
      as [[-> _] | [(e & -> & _) | (v & -> & _ & _ & Hv)]]; cbn; auto. }
  assert (Hoptional : forall j (t : option T),
            replaced_or_kept t (optional_converted j) (get_value j t)).
  { intros j t. unfold get_value, GetValueFor_optional.
    destruct (GetValue_optional_inv j t)
      as [[-> Hnull] | [(e & -> & _) | (v & -> & _ & _ & Hv)]]; cbn; auto.
    - now left.
    - right. eauto. }
  split; [| split; [| split]].
  - apply Hprimitive.
  - apply Hoptional.
  - now apply GetValueForKey_replaced_or_kept.
  - now apply (GetValueForKey_replaced_or_kept optional_converted).
Qed.

(** ** Required keys *)

Section Required.
Context `{Externals} {T : Type} `{ConversionTrait T}.


End Required.






(** ** The launch position *)

Lemma read_until_token (token rest : string) :
  comma_free token = true ->
  read_until singleCharDelim (token ++ String singleCharDelim rest) = (token, rest).
Proof.
  induction token as [| c token IH]; simpl; [reflexivity |].
  intros [Hc Htoken]%andb_true_iff.
  destruct (Ascii.eqb c singleCharDelim); [discriminate |].
  now rewrite (IH Htoken).
Qed.

Lemma read_until_last (token : string) :
  comma_free token = true ->
  read_until singleCharDelim token = (token, EmptyString).
Proof.
  induction token as [| c token IH]; simpl; [reflexivity |].
  intros [Hc Htoken]%andb_true_iff.
  destruct (Ascii.eqb c singleCharDelim); [discriminate |].
  now rewrite (IH Htoken).
Qed.

Lemma getline_token (token rest : string) :
  comma_free token = true ->
  getline (token ++ String singleCharDelim rest) singleCharDelim = Some (token, rest).
Proof.
  intros Htoken. unfold getline. rewrite read_until_token by assumption.
  now destruct token.
Qed.

Lemma getline_last (token : string) :
  comma_free token = true ->
  getline token singleCharDelim =
    match token with
    | EmptyString => None
    | _ => Some (token, EmptyString)
    end.
Proof.
  intros Htoken. unfold getline. rewrite read_until_last by assumption.
  now destruct token.
Qed.

(** [getline] takes at least one character off the stream. *)
Lemma read_until_shorter (s token rest : string) :
  read_until singleCharDelim s = (token, rest) ->
  (String.length rest <= String.length s)%nat /\
  (s <> EmptyString -> String.length rest < String.length s)%nat.
Proof.
  revert token rest. induction s as [| c s IH]; simpl; intros token rest.
  - intros [= <- <-]. split; [cbn; lia | congruence].
  - destruct (Ascii.eqb c singleCharDelim).
    + intros [= <- <-]. split; intros; lia.
    + destruct (read_until singleCharDelim s) as [token' rest'] eqn:Hread.
      intros [= <- <-]. destruct (IH _ _ eq_refl) as [Hle _].
      split; intros; lia.
Qed.

Lemma getline_shorter (stream token rest : string) :
  getline stream singleCharDelim = Some (token, rest) ->
  (String.length rest < String.length stream)%nat.
Proof.
  unfold getline. destruct stream as [| c stream]; [discriminate |].
  intros [= Hread].
  now apply (read_until_shorter (String c stream) token rest Hread).
Qed.

(** The loop never runs out of fuel: with more turns than the stream has
    characters, the result is that of any larger number of turns. *)
Lemma LaunchPosition_loop_fuel (fuel fuel' : nat) (tokenStream : string)
    (initialPosIndex : Z) (ret : LaunchPosition) :
  (String.length tokenStream < fuel)%nat ->
  (String.length tokenStream < fuel')%nat ->
  LaunchPosition_loop fuel tokenStream initialPosIndex ret
    = LaunchPosition_loop fuel' tokenStream initialPosIndex ret.
Proof.
  revert fuel' tokenStream initialPosIndex ret.
  induction fuel as [| fuel IH]; intros fuel' tokenStream idx ret Hfuel Hfuel';
    [lia |].
  destruct fuel' as [| fuel']; [lia |]. cbn.
  destruct (getline tokenStream singleCharDelim) as [[token rest] |] eqn:Hline;
    [| reflexivity].
  destruct (idx <? 2); [| reflexivity].
  pose proof (getline_shorter _ _ _ Hline). apply IH; lia.
Qed.

Lemma LaunchPosition_body_0 (token : string) :
  LaunchPosition_body token 0 {| x := None; y := None |}
    = {| x := coordinate token; y := None |}.
Proof.
  unfold LaunchPosition_body, coordinate. now destruct (stoi token).
Qed.

Lemma LaunchPosition_body_1 (token : string) (x0 : option Z) :
  LaunchPosition_body token 1 {| x := x0; y := None |}
    = {| x := x0; y := coordinate token |}.
Proof.
  unfold LaunchPosition_body, coordinate. now destruct (stoi token).
Qed.

(** Two tokens and a second comma: what follows is not read. *)
Lemma LaunchPosition_loop_three (fuel : nat) (token0 token1 rest : string) :
  comma_free token0 = true -> comma_free token1 = true ->
  LaunchPosition_loop (S (S (S fuel)))
    (token0 ++ String singleCharDelim (token1 ++ String singleCharDelim rest))
    0 {| x := None; y := None |}
    = {| x := coordinate token0; y := coordinate token1 |}.
Proof.
  intros H0 H1. cbn [LaunchPosition_loop].
  rewrite getline_token by assumption. cbn [Z.ltb Z.compare].
  rewrite LaunchPosition_body_0.
  rewrite getline_token by assumption.
  change ((0 + 1) mod 256) with 1. cbn [Z.ltb Z.compare Pos.compare Pos.compare_cont].
  rewrite LaunchPosition_body_1.
  change ((1 + 1) mod 256) with 2.
  now destruct (getline rest singleCharDelim) as [[token2 rest2] |].
Qed.

Lemma LaunchPosition_loop_two (fuel : nat) (token0 token1 : string) :
  comma_free token0 = true -> comma_free token1 = true ->
  (String.length token1 <= fuel)%nat ->
  LaunchPosition_loop (S (S fuel)) (token0 ++ String singleCharDelim token1)
    0 {| x := None; y := None |}
    = {| x := coordinate token0; y := coordinate token1 |}.
Proof.
  intros H0 H1 Hfuel. cbn [LaunchPosition_loop].
  rewrite getline_token by assumption. cbn [Z.ltb Z.compare].
  rewrite LaunchPosition_body_0.
  rewrite getline_last by assumption.
  destruct token1 as [| c token1]; [reflexivity |].
  change ((0 + 1) mod 256) with 1. cbn [Z.ltb Z.compare Pos.compare Pos.compare_cont].
  rewrite LaunchPosition_body_1.
  destruct fuel as [| fuel]; [cbn in Hfuel; lia |]. reflexivity.
Qed.

Lemma LaunchPosition_loop_one (fuel : nat) (token0 : string) :
  comma_free token0 = true ->
  (String.length token0 <= fuel)%nat ->
  LaunchPosition_loop (S fuel) token0 0 {| x := None; y := None |}
    = {| x := coordinate token0; y := None |}.
Proof.
  intros H0 Hfuel. cbn [LaunchPosition_loop].
  rewrite getline_last by assumption.
  destruct token0 as [| c token0]; [reflexivity |].
  cbn [Z.ltb Z.compare]. rewrite LaunchPosition_body_0.
  destruct fuel as [| fuel]; [cbn in Hfuel; lia |]. reflexivity.
Qed.

Lemma length_append (s1 s2 : string) :
  String.length (s1 ++ s2) = (String.length s1 + String.length s2)%nat.
Proof.
  induction s1 as [| c s1 IH]; simpl; [reflexivity | now rewrite IH].
Qed.

(** White space is skipped the same way in the C string. *)
Lemma skip_spaces_c_str (s : string) :
  skip_spaces (c_str s) = c_str (skip_spaces s).
Proof.
  induction s as [| c s IH]; [reflexivity |].
  cbn [c_str skip_spaces].
  destruct (Ascii.eqb_spec c zero) as [-> | Hc]; [reflexivity |].
  cbn [skip_spaces]. destruct (isspace c); [exact IH |].
  cbn [c_str]. now destruct (Ascii.eqb_spec c zero).
Qed.

Lemma read_digits_no_digit (s : string) :
  match s with
  | String d _ => isdigit d = false
  | EmptyString => True
  end ->
  read_digits (c_str s) None = None.
Proof.
  destruct s as [| d s]; [reflexivity |]. intros Hd. cbn [c_str].
  destruct (Ascii.eqb d zero); [reflexivity |]. cbn [read_digits].
  now rewrite Hd.
Qed.

Lemma strtol_non_numeric (token : string) :
  non_numeric token = true -> strtol (c_str token) = None.
Proof.
  unfold non_numeric, strtol. rewrite skip_spaces_c_str.
  destruct (skip_spaces token) as [| c rest]; [reflexivity |].
  cbn [c_str]. destruct (Ascii.eqb_spec c zero) as [-> | Hc]; [reflexivity |].
  destruct (Ascii.eqb c "-") eqn:Hminus; cbn [orb].
  - intros Hrest. rewrite read_digits_no_digit; [reflexivity |].
    destruct rest; [exact I | now apply negb_true_iff].
  - destruct (Ascii.eqb c "+") eqn:Hplus.
    + intros Hrest. apply read_digits_no_digit.
      destruct rest; [exact I | now apply negb_true_iff].
    + intros Hdigit%negb_true_iff. cbn [read_digits]. now rewrite Hdigit.
Qed.

(** Where the parser does what its comment says.  The launch position of
    a comma-delimited string document:
    ["100,50"] gives (100, 50); [",50"] and ["abc,50"] give (absent, 50);
    [","] gives (absent, absent); ["100,50,999"] gives (100, 50).  In
    general the first two tokens give [x] and [y], each through
    [coordinate], and what follows a second comma is not read; a token that
    is empty or in which no number starts ([non_numeric]) leaves its
    coordinate absent. *)
Theorem LaunchPosition_FromJson_cases `{Externals} :
  FromJson (Json.stringValue "100,50") = Ok {| x := Some 100; y := Some 50 |} /\
  FromJson (Json.stringValue ",50") = Ok {| x := None; y := Some 50 |} /\
  FromJson (Json.stringValue "abc,50") = Ok {| x := None; y := Some 50 |} /\
  FromJson (Json.stringValue ",") = Ok {| x := None; y := None |} /\
  FromJson (Json.stringValue "100,50,999") = Ok {| x := Some 100; y := Some 50 |} /\
  (forall token0 token1 rest : string,
     comma_free token0 = true -> comma_free token1 = true ->
     FromJson (Json.stringValue (token0 ++ "," ++ token1 ++ "," ++ rest))
       = Ok {| x := coordinate token0; y := coordinate token1 |} /\
     FromJson (Json.stringValue (token0 ++ "," ++ token1))
       = Ok {| x := coordinate token0; y := coordinate token1 |}) /\
  (forall token0 : string, comma_free token0 = true ->
     FromJson (Json.stringValue token0)
       = Ok {| x := coordinate token0; y := None |}) /\
  (forall token : string, non_numeric token = true -> coordinate token = None) /\
  coordinate "" = None.
Proof.
  repeat match goal with |- _ /\ _ => split end; try reflexivity.
  - intros token0 token1 rest H0 H1.
    cbn [FromJson ConversionTrait_LaunchPosition LaunchPosition_FromJson Json.asString].
    change ("," ++ rest) with (String singleCharDelim rest).
    change ("," ++ token1 ++ String singleCharDelim rest)
      with (String singleCharDelim (token1 ++ String singleCharDelim rest)).
    change ("," ++ token1) with (String singleCharDelim token1).
    split; f_equal.
    + set (stream := token0 ++ _).
      rewrite (LaunchPosition_loop_fuel _ (S (S (S (String.length stream)))))
        by lia.
      now apply LaunchPosition_loop_three.
    + set (stream := token0 ++ _).
      rewrite (LaunchPosition_loop_fuel _ (S (S (String.length stream))))
        by lia.
      apply LaunchPosition_loop_two; [assumption | assumption |].
      subst stream. rewrite length_append. simpl. lia.
  - intros token0 H0.
    cbn [FromJson ConversionTrait_LaunchPosition LaunchPosition_FromJson Json.asString].
    f_equal. now apply LaunchPosition_loop_one.
  - intros token Htoken. unfold coordinate, stoi.
    now rewrite strtol_non_numeric.
Qed.

Lemma LaunchPosition_FromJson_cases_witness :
  FromJson (ConversionTrait := ConversionTrait_LaunchPosition (H := plain_externals))
    (Json.stringValue "7,-3,up")
    = Ok {| x := Some 7; y := Some (-3) |} /\
  coordinate "up" = None.
Proof.
  pose proof (LaunchPosition_FromJson_cases (H := plain_externals))
    as (_ & _ & _ & _ & _ & Htokens & _ & Hnone & _).
  split.
  - apply (Htokens "7" "-3" "up"); reflexivity.
  - apply (Hnone "up"). reflexivity.
Defined.

(** [std::stoi] reads the number a token starts with and stops at the
    first character after it, and it skips leading white space; a number
    that does not fit an [int] makes it throw. *)
Example coordinate_prefix :
  coordinate "12abc" = Some 12 /\ coordinate " 50" = Some 50 /\
  coordinate "99999999999" = None.
Proof. repeat split. Qed.

(** ** Tokens that a number starts *)

Lemma pretty_N_char_digit (d : N) :
  (d < 10)%N ->
  isdigit (pretty_N_char d) = true /\
  digit_value (pretty_N_char d) = Z.of_N d /\
  Ascii.eqb (pretty_N_char d) zero = false /\
  Ascii.eqb (pretty_N_char d) singleCharDelim = false /\
  isspace (pretty_N_char d) = false /\
  Ascii.eqb (pretty_N_char d) "-" = false /\
  Ascii.eqb (pretty_N_char d) "+" = false.
Proof.
  intros Hd.
  assert (d = 0 \/ d = 1 \/ d = 2 \/ d = 3 \/ d = 4 \/ d = 5 \/ d = 6 \/
          d = 7 \/ d = 8 \/ d = 9)%N as Hcases by lia.
  repeat destruct Hcases as [-> | Hcases]; try subst d; repeat split.
Qed.

(** The decimal digits that [pretty] writes for a positive number, before
    a string [s]: [read_digits] reads the number back, and the digits hold
    no NUL, no comma and no white space. *)
Lemma pretty_N_go_digits (x : N) :
  (0 < x)%N ->
  forall s : string,
    read_digits (pretty_N_go x s) None = read_digits s (Some (Z.of_N x)) /\
    comma_free (pretty_N_go x s) = comma_free s /\
    c_str (pretty_N_go x s) = pretty_N_go x (c_str s) /\
    exists c rest,
      pretty_N_go x s = String c rest /\ isdigit c = true /\
      isspace c = false /\ Ascii.eqb c "-" = false /\ Ascii.eqb c "+" = false.
Proof.
  induction (N.lt_wf_0 x) as [x _ IH]. intros Hx s.
  rewrite !(pretty_N_go_step x) by exact Hx.
  assert (Hd : (x `mod` 10 < 10)%N) by (apply N.mod_lt; lia).
  destruct (pretty_N_char_digit _ Hd)
    as (Hdigit & Hvalue & Hnul & Hcomma & Hspace & Hminus & Hplus).
  destruct (N.eq_0_gt_0_cases (x `div` 10)) as [Hzero | Hpos].
  - rewrite Hzero, !pretty_N_go_0.
    assert (Hsmall : Z.of_N (x `mod` 10) = Z.of_N x).
    { f_equal. rewrite (N.div_mod x 10) at 2 by lia. lia. }
    split; [| split; [| split]].
    + cbn [read_digits]. rewrite Hdigit, Hvalue. cbn [default].
      now rewrite <- Hsmall.
    + cbn [comma_free]. now rewrite Hcomma.
    + cbn [c_str]. now rewrite Hnul.
    + eauto 10.
  - assert (Hlt : (x `div` 10 < x)%N) by (apply N.div_lt; lia).
    destruct (IH _ Hlt Hpos (String (pretty_N_char (x `mod` 10)) s))
      as (Hread & Hfree & Hstr & Hhead).
    split; [| split; [| split]].
    + rewrite Hread. cbn [read_digits]. rewrite Hdigit, Hvalue.
      do 2 f_equal. unfold default. cbn [from_option id].
      pose proof (N.div_mod x 10 ltac:(lia)). lia.
    + rewrite Hfree. cbn [comma_free]. now rewrite Hcomma.
    + rewrite Hstr. cbn [c_str]. now rewrite Hnul.
    + exact Hhead.
Qed.

(** The digits are written in front of the string, whatever it holds. *)
Lemma pretty_N_go_app (x : N) (s t : string) :
  pretty_N_go x (s ++ t) = pretty_N_go x s ++ t.
Proof.
  revert s. induction (N.lt_wf_0 x) as [x _ IH]. intros s.
  destruct (N.eq_0_gt_0_cases x) as [-> | Hx]; [now rewrite !pretty_N_go_0 |].
  rewrite !(pretty_N_go_step x) by exact Hx.
  apply (IH _ (N.div_lt x 10 Hx eq_refl)
           (String (pretty_N_char (x `mod` 10)) s)).
Qed.

Lemma pretty_N_go_tail (x : N) (t : string) :
  pretty_N_go x "" ++ t = pretty_N_go x t.
Proof. symmetry. apply (pretty_N_go_app x "" t). Qed.

Lemma read_digits_stops (tail : string) (acc : option Z) :
  stops_number tail = true -> read_digits (c_str tail) acc = acc.
Proof.
  destruct tail as [| d tail]; [reflexivity |]. cbn [stops_number c_str].
  intros Hd%negb_true_iff. destruct (Ascii.eqb d zero); [reflexivity |].
  cbn [read_digits]. now rewrite Hd.
Qed.

Lemma comma_free_app (s t : string) :
  comma_free (s ++ t) = comma_free s && comma_free t.
Proof.
  induction s as [| c s IH]; [reflexivity |]. simpl.
  now rewrite IH, andb_assoc.
Qed.

(** [std::stoi] converts the number a token starts with and does not look
    at what follows it: the decimal text of an [int], and after it any
    tail that does not go on with a digit, gives that [int]. *)
Lemma coordinate_numeric_prefix (n : Z) (tail : string) :
  is_int n -> stops_number tail = true ->
  coordinate (pretty n ++ tail) = Some n /\
  comma_free (pretty n ++ tail) = comma_free tail.
Proof.
  unfold is_int, coordinate, stoi. intros Hn Htail.
  rewrite comma_free_app.
  destruct n as [| p | p].
  - change (pretty 0 ++ tail) with (String "0" tail). cbn [c_str].
    change (Ascii.eqb "0" zero) with false. cbn iota.
    unfold strtol. cbn [skip_spaces]. change (isspace "0") with false.
    cbn iota. change (Ascii.eqb "0" "-") with false.
    change (Ascii.eqb "0" "+") with false. cbn iota. cbn [read_digits].
    change (isdigit "0") with true. cbn iota.
    rewrite (read_digits_stops tail _ Htail). split; reflexivity.
  - unfold pretty, pretty_Z, pretty, pretty_positive, pretty, pretty_N.
    destruct (decide (N.pos p = 0%N)) as [Hzero | _]; [discriminate Hzero |].
    rewrite pretty_N_go_tail.
    destruct (pretty_N_go_digits (N.pos p) ltac:(lia) "") as (_ & Hfree & _).
    rewrite Hfree. cbn [comma_free andb].
    destruct (pretty_N_go_digits (N.pos p) ltac:(lia) tail) as (_ & _ & Hstr & _).
    rewrite Hstr.
    destruct (pretty_N_go_digits (N.pos p) ltac:(lia) (c_str tail))
      as (Hread & _ & _ & c & rest & Hhead & _ & Hspace & Hminus & Hplus).
    unfold strtol. rewrite Hhead. cbn [skip_spaces].
    rewrite Hspace, Hminus, Hplus, <- Hhead, Hread.
    rewrite (read_digits_stops tail _ Htail). cbn [Z.of_N].
    replace ((INT_MIN <=? Z.pos p) && (Z.pos p <=? INT_MAX)) with true
      by (symmetry; apply andb_true_iff; split; apply Z.leb_le; lia).
    split; reflexivity.
  - unfold pretty, pretty_Z, pretty, pretty_positive, pretty, pretty_N.
    destruct (decide (N.pos p = 0%N)) as [Hzero | _]; [discriminate Hzero |].
    change (("-" +:+ pretty_N_go (N.pos p) "") ++ tail)
      with (String "-" (pretty_N_go (N.pos p) "" ++ tail)).
    change ("-" +:+ pretty_N_go (N.pos p) "")
      with (String "-" (pretty_N_go (N.pos p) "")).
    rewrite pretty_N_go_tail.
    cbn [c_str comma_free]. change (Ascii.eqb "-" zero) with false.
    change (Ascii.eqb "-" singleCharDelim) with false. cbn [negb andb].
    destruct (pretty_N_go_digits (N.pos p) ltac:(lia) "") as (_ & Hfree & _).
    rewrite Hfree. cbn [comma_free andb].
    destruct (pretty_N_go_digits (N.pos p) ltac:(lia) tail) as (_ & _ & Hstr & _).
    rewrite Hstr.
    destruct (pretty_N_go_digits (N.pos p) ltac:(lia) (c_str tail))
      as (Hread & _).
    unfold strtol. cbn [skip_spaces]. change (isspace "-") with false.
    cbn iota. change (Ascii.eqb "-" "-") with true. cbn iota.
    rewrite Hread, (read_digits_stops tail _ Htail).
    cbn [fmap option_fmap option_map Z.of_N].
    change (- Z.pos p) with (Z.neg p).
    replace ((INT_MIN <=? Z.neg p) && (Z.neg p <=? INT_MAX)) with true
      by (symmetry; apply andb_true_iff; split; apply Z.leb_le; lia).
    split; reflexivity.
Qed.

(** C8.  Where the parser departs from the claim and from its own comment
    ([if a value is not valid, we treat it as default]): [std::stoi]
    converts the digits a token starts with and the code never asks how
    far it read, so a token that is no number gets a coordinate.
    ["12abc,50"] gives (12, 50) and ["1.5,50"] gives (1, 50), not
    (absent, 50); and so does every first token made of the decimal text
    of an [int] and a tail that does not go on with a digit. *)
Theorem LaunchPosition_FromJson_numeric_prefix `{Externals} :
  FromJson (Json.stringValue "12abc,50") = Ok {| x := Some 12; y := Some 50 |} /\
  FromJson (Json.stringValue "1.5,50") = Ok {| x := Some 1; y := Some 50 |} /\
  (forall (n : Z) (tail token1 : string),
     is_int n -> stops_number tail = true ->
     comma_free tail = true -> comma_free token1 = true ->
     FromJson (Json.stringValue ((pretty n ++ tail) ++ "," ++ token1))
       = Ok {| x := Some n; y := coordinate token1 |}).
Proof.
  repeat match goal with |- _ /\ _ => split end; try reflexivity.
  intros n tail token1 Hn Htail Hfree0 Hfree1.
  destruct (coordinate_numeric_prefix n tail Hn Htail) as [Hx Hfree].
  rewrite Hfree0 in Hfree.
  cbn [FromJson ConversionTrait_LaunchPosition LaunchPosition_FromJson
         Json.asString].
  change ("," ++ token1) with (String singleCharDelim token1).
  set (stream := (pretty n ++ tail) ++ _). f_equal.
  rewrite (LaunchPosition_loop_fuel _ (S (S (String.length stream)))) by lia.
  subst stream. rewrite LaunchPosition_loop_two; try assumption.
  - now rewrite Hx.
  - rewrite length_append. simpl. lia.
Qed.

(** ** Layering *)

Lemma seq_returned {S A B : Type} (a : stmt S A) (k : A -> stmt S B)
    (s s' : S) (r : B) :
  seq a k s = Returned s' r ->
  exists s1 r1, a s = Returned s1 r1 /\ k r1 s1 = Returned s' r.
Proof.
  unfold seq. destruct (a s) as [s1 r1 | s1 e]; [eauto | discriminate].
Qed.

Lemma isInt_asInt (json : Json.Value) :
  Json.isInt json = true -> exists i, Json.asInt json = Ok i.
Proof.
  destruct json; try discriminate; cbn [Json.asInt]; intros Hint.
  - rewrite Hint. cbn. eauto.
  - rewrite Hint. cbn. eauto.
  - cbn in Hint. apply andb_true_iff in Hint as [-> _]. cbn. eauto.
Qed.

Section Layering.
Context `{Externals}.

Lemma on_member_returned {T R : Type} (get : GlobalAppSettings -> T)
    (set : T -> GlobalAppSettings -> GlobalAppSettings)
    (call : T -> outcome T R) (s s' : GlobalAppSettings) (r : R) :
  on_member get set call s = Returned s' r ->
  exists v, call (get s) = Returned v r /\ s' = set v s.
Proof.
  unfold on_member. destruct (call (get s)) as [v r' | v e]; [| discriminate].
  intros [= <- <-]. eauto.
Qed.

(** [GetValueForKey] on an object, when it returns: the member the key
    gives has been converted into the target, or there is none and the
    target is what it was. *)
Lemma GetValueForKey_given {T : Type} `{ConversionTrait T}
    (m : gmap string Json.Value) (key : string) (target v : T) (b : bool) :
  GetValueForKey (Json.objectValue m) key target = Returned v b ->
  match given m key with
  | Some found => FromJson found = Ok v
  | None => v = target
  end.
Proof.
  unfold GetValueForKey, given. cbn [Json.find].
  destruct (m !! key) as [found |]; [| now intros [= <- _]].
  unfold get_value, GetValueFor_T.
  destruct (GetValue_inv found target)
    as [[-> ->] | [(e & -> & _) | (v' & -> & -> & _ & Hv)]].
  - now intros [= <- _].
  - discriminate.
  - now intros [= <- _].
Qed.

Lemma set_RowsToScroll_same (s : GlobalAppSettings) :
  set_RowsToScroll (_RowsToScroll s) s = s.
Proof. now destruct s. Qed.

Lemma LayerJson_rowsToScroll_returned (m : gmap string Json.Value)
    (s s' : GlobalAppSettings) :
  LayerJson_rowsToScroll (Json.objectValue m) s = Returned s' tt ->
  exists v, s' = set_RowsToScroll v s /\
    match given m RowsToScrollKey with
    | Some found => Field.rowsToScroll_value found = Ok v
    | None => v = _RowsToScroll s
    end.
Proof.
  unfold LayerJson_rowsToScroll, given, Json.index, JsonKey,
    Field.rowsToScroll_value. cbn [Json.find].
  destruct (m !! RowsToScrollKey) as [found |]; unfold Json.to_bool.
  - destruct (Json.isNull found); cbn [negb].
    + intros [= <-]. exists (_RowsToScroll s).
      now rewrite set_RowsToScroll_same.
    + destruct (Json.isInt found).
      * destruct (Json.asInt found) as [i | e]; [| discriminate].
        intros [= <-]. eauto.
      * intros [= <-]. eauto.
  - cbn. intros [= <-]. exists (_RowsToScroll s).
    now rewrite set_RowsToScroll_same.
Qed.

(** The key bindings step touches the bindings and their warnings only. *)
Lemma LayerJson_keybindings_returned (json : Json.Value)
    (s s' : GlobalAppSettings) :
  LayerJson_keybindings json s = Returned s' tt ->
  exists bindings warnings,
    s' = set_keybindingsWarnings warnings (set_keybindings bindings s).
Proof.
  unfold LayerJson_keybindings.
  destruct (Json.index json (JsonKey KeybindingsKey)) as [keybindings | e];
    [| discriminate].
  destruct (Json.to_bool keybindings).
  - destruct (AppKeyBindings_LayerJson keybindings (_keybindings s))
      as [bindings warnings | bindings e]; [| discriminate].
    intros [= <-]. eauto.
  - intros [= <-]. exists (_keybindings s), (_keybindingsWarnings s).
    now destruct s.
Qed.

(** One call of [LayerJson] that returns, member by member. *)
Lemma LayerJson_member (m : gmap string Json.Value)
    (s s' : GlobalAppSettings) (f : Field.t) :
  LayerJson (Json.objectValue m) s = Returned s' tt ->
  match given m (Field.key f) with
  | Some found => Field.convert f found = Ok (Field.get f s')
  | None => Field.get f s' = Field.get f s
  end.
Proof.
  intros Hlayer. unfold LayerJson in Hlayer.
  repeat match type of Hlayer with
         | seq _ _ _ = Returned _ _ =>
             apply seq_returned in Hlayer as (? & ? & ? & Hlayer)
         end.
  apply LayerJson_keybindings_returned in Hlayer as (bindings & warnings & ->).
  repeat match goal with
         | Hstep : on_member _ _ _ _ = Returned _ _ |- _ =>
             apply on_member_returned in Hstep as (? & Hstep & ->);
             apply GetValueForKey_given in Hstep
         | Hstep : LayerJson_rowsToScroll _ _ = Returned _ _ |- _ =>
             repeat match goal with u : unit |- _ => destruct u end;
             apply LayerJson_rowsToScroll_returned in Hstep as (? & -> & Hstep)
         end.
  destruct f; cbn in *; assumption.
Qed.

End Layering.

(** C1, as the claim states it, fails on a key whose member is null: the
    key is present in the second document, and the member keeps the value
    of the first. *)
Lemma LayerJson_null_member_keeps_layer :
  exists s1 s2 : GlobalAppSettings (H := plain_externals),
    LayerJson (Json.objectValue {[ "initialRows" := Json.intValue 50 ]})
      GlobalAppSettings_ctor = Returned s1 tt /\
    LayerJson (Json.objectValue {[ "initialRows" := Json.nullValue ]}) s1
      = Returned s2 tt /\
    ({[ "initialRows" := Json.nullValue ]} : gmap string Json.Value)
      !! Field.key Field.InitialRows = Some Json.nullValue /\
    Field.convert (H := plain_externals) Field.InitialRows Json.nullValue
      = Ok 0 /\
    Field.get Field.InitialRows s2 = 50.
Proof.
  eexists. eexists. split; [vm_compute; reflexivity |].
  split; [vm_compute; reflexivity |]. repeat split.
Qed.

(** C1, amended.  A key gives a member a value when the document has a
    member under it that is not null ([given]).  For every member that
    [LayerJson] fills from a key: a call of [LayerJson] that returns sets
    the member to the converted value of what its key gives, and leaves the
    member as it was when the key gives nothing; so after two documents on
    a new [GlobalAppSettings] the member holds the converted value from the
    second document when its key gives one there, else the converted value
    from the first when its key gives one there, else the default. *)
Theorem LayerJson_layers `{Externals} (f : Field.t) :
  (forall (m : gmap string Json.Value) (s s' : GlobalAppSettings),
     LayerJson (Json.objectValue m) s = Returned s' tt ->
     match given m (Field.key f) with
     | Some found => Field.convert f found = Ok (Field.get f s')
     | None => Field.get f s' = Field.get f s
     end) /\
  (forall (m1 m2 : gmap string Json.Value) (s1 s2 : GlobalAppSettings),
     LayerJson (Json.objectValue m1) GlobalAppSettings_ctor = Returned s1 tt ->
     LayerJson (Json.objectValue m2) s1 = Returned s2 tt ->
     match given m2 (Field.key f) with
     | Some found => Field.convert f found = Ok (Field.get f s2)
     | None =>
         match given m1 (Field.key f) with
         | Some found => Field.convert f found = Ok (Field.get f s2)
         | None => Field.get f s2 = Field.get f GlobalAppSettings_ctor
         end
     end).
Proof.
  split.
  - intros m s s'. apply LayerJson_member.
  - intros m1 m2 s1 s2 Hfirst Hsecond.
    pose proof (LayerJson_member m1 _ _ f Hfirst) as H1.
    pose proof (LayerJson_member m2 _ _ f Hsecond) as H2.
    destruct (given m2 (Field.key f)); [exact H2 |].
    rewrite H2. exact H1.
Qed.

Lemma LayerJson_layers_witness :
  Field.convert (H := plain_externals) Field.Theme (Json.stringValue "dark")
    = Ok (Field.get Field.Theme
            (final (LayerJson
                      (Json.objectValue {[ "initialRows" := Json.intValue 60 ]})
                      (final (LayerJson
                                (Json.objectValue
                                   (<[ "theme" := Json.stringValue "dark" ]>
                                      {[ "initialRows" := Json.intValue 50 ]}))
                                GlobalAppSettings_ctor))))).
Proof.
  exact (proj2 (LayerJson_layers (H := plain_externals) Field.Theme)
           (<[ "theme" := Json.stringValue "dark" ]>
              {[ "initialRows" := Json.intValue 50 ]})
           {[ "initialRows" := Json.intValue 60 ]}
           (final (LayerJson
                     (Json.objectValue
                        (<[ "theme" := Json.stringValue "dark" ]>
                           {[ "initialRows" := Json.intValue 50 ]}))
                     GlobalAppSettings_ctor))
           (final (LayerJson
                     (Json.objectValue {[ "initialRows" := Json.intValue 60 ]})
                     (final (LayerJson
                               (Json.objectValue
                                  (<[ "theme" := Json.stringValue "dark" ]>
                                     {[ "initialRows" := Json.intValue 50 ]}))
                               GlobalAppSettings_ctor))))
           eq_refl eq_refl).
Defined.

(** [LayerJson] looks at an object through its known keys only. *)
Lemma LayerJson_known_keys `{Externals} (m m' : gmap string Json.Value)
    (s : GlobalAppSettings) :
  (forall key, In key known_keys -> m !! key = m' !! key) ->
  LayerJson (Json.objectValue m) s = LayerJson (Json.objectValue m') s.
Proof.
  intros Hagree.
  assert (Hkeys : Forall (fun key => m !! key = m' !! key) known_keys).
  { apply List.Forall_forall. exact Hagree. }
  unfold known_keys, Field.all in Hkeys. cbn [map Field.key] in Hkeys.
  unfold LayerJson, LayerJson_rowsToScroll, LayerJson_keybindings, Json.index,
    JsonKey, GetValueForKey.
  cbn [Json.find].
  repeat match goal with
         | Hkeys : Forall _ (_ :: _) |- _ =>
             apply Forall_cons_iff in Hkeys as [-> Hkeys]
         end.
  reflexivity.
Qed.

Lemma LayerJson_no_known_key `{Externals} (s : GlobalAppSettings) :
  LayerJson (Json.objectValue ∅) s = Returned s tt.
Proof. now destruct s. Qed.

(** C9. Keys that no member is filled from do not make [LayerJson] fail
    and are ignored: a document and the same document with such keys added
    end [LayerJson] the same way, with every member at the same value (two
    documents that agree on the known keys do); a document that has no
    known key at all makes [LayerJson] return, with no member changed. *)
Theorem LayerJson_ignores_unknown_keys `{Externals}
    (m : gmap string Json.Value) (s : GlobalAppSettings) :
  (forall (key : string) (v : Json.Value), ~ In key known_keys ->
     LayerJson (Json.objectValue (<[ key := v ]> m)) s
       = LayerJson (Json.objectValue m) s) /\
  (forall m' : gmap string Json.Value,
     (forall key, In key known_keys -> m !! key = m' !! key) ->
     LayerJson (Json.objectValue m) s = LayerJson (Json.objectValue m') s) /\
  ((forall key, In key known_keys -> m !! key = None) ->
     LayerJson (Json.objectValue m) s = Returned s tt).
Proof.
  split; [| split].
  - intros key v Hunknown. apply LayerJson_known_keys.
    intros key' Hknown. apply lookup_insert_ne. congruence.
  - intros m'. apply LayerJson_known_keys.
  - intros Hnone. rewrite <- (LayerJson_no_known_key s).
    apply LayerJson_known_keys. intros key Hknown.
    rewrite lookup_empty. now apply Hnone.
Qed.

Lemma LayerJson_ignores_unknown_keys_witness :
  LayerJson (H := plain_externals)
    (Json.objectValue (<[ "colour" := Json.stringValue "red" ]>
                         {[ "initialRows" := Json.intValue 50 ]}))
    GlobalAppSettings_ctor
  = LayerJson (Json.objectValue {[ "initialRows" := Json.intValue 50 ]})
      GlobalAppSettings_ctor.
Proof.
  apply (proj1 (LayerJson_ignores_unknown_keys (H := plain_externals)
                  {[ "initialRows" := Json.intValue 50 ]} GlobalAppSettings_ctor)).
  unfold known_keys. cbn.
  intros Hin. repeat destruct Hin as [Hin | Hin]; try discriminate. exact Hin.
Defined.

(** C10, as the claim states it, fails on a [rowsToScroll] that is null:
    the key is present with a value that is no integer, and
    [_RowsToScroll] keeps its value instead of becoming 0. *)
Lemma LayerJson_rowsToScroll_null :
  exists s1 s2 : GlobalAppSettings (H := plain_externals),
    LayerJson (Json.objectValue {[ "rowsToScroll" := Json.intValue 3 ]})
      GlobalAppSettings_ctor = Returned s1 tt /\
    LayerJson (Json.objectValue {[ "rowsToScroll" := Json.nullValue ]}) s1
      = Returned s2 tt /\
    ({[ "rowsToScroll" := Json.nullValue ]} : gmap string Json.Value)
      !! RowsToScrollKey = Some Json.nullValue /\
    Json.isInt Json.nullValue = false /\
    _RowsToScroll s1 = 3 /\
    _RowsToScroll s2 = 3.
Proof.
  eexists. eexists. split; [vm_compute; reflexivity |].
  split; [vm_compute; reflexivity |]. repeat split.
Qed.

(** C10, amended.  [rowsToScroll] does not go through [GetValueForKey]:
    its statement never throws on an object, and after a [LayerJson] that
    returns, [_RowsToScroll] is the integer of the member when [isInt]
    accepts it, 0 when the member is neither null nor such an integer (the
    string ["system"], say), and unchanged when the key is absent or its
    member is null. *)
Theorem LayerJson_rowsToScroll_cases `{Externals} (m : gmap string Json.Value) :
  (forall s : GlobalAppSettings,
     exists s', LayerJson_rowsToScroll (Json.objectValue m) s = Returned s' tt) /\
  (forall s s' : GlobalAppSettings,
     LayerJson (Json.objectValue m) s = Returned s' tt ->
     match m !! RowsToScrollKey with
     | None => _RowsToScroll s' = _RowsToScroll s
     | Some found =>
         if Json.isNull found then _RowsToScroll s' = _RowsToScroll s
         else if Json.isInt found then Json.asInt found = Ok (_RowsToScroll s')
         else _RowsToScroll s' = 0
     end) /\
  (forall s s' : GlobalAppSettings,
     m !! RowsToScrollKey = Some (Json.stringValue "system") ->
     LayerJson (Json.objectValue m) s = Returned s' tt ->
     _RowsToScroll s' = 0).
Proof.
  assert (Hcases : forall s s' : GlobalAppSettings,
     LayerJson (Json.objectValue m) s = Returned s' tt ->
     match m !! RowsToScrollKey with
     | None => _RowsToScroll s' = _RowsToScroll s
     | Some found =>
         if Json.isNull found then _RowsToScroll s' = _RowsToScroll s
         else if Json.isInt found then Json.asInt found = Ok (_RowsToScroll s')
         else _RowsToScroll s' = 0
     end).
  { intros s s' Hlayer.
    pose proof (LayerJson_member m s s' Field.RowsToScroll Hlayer) as Hmember.
    unfold given in Hmember. cbn [Field.key Field.get Field.convert] in Hmember.
    destruct (m !! RowsToScrollKey) as [found |]; [| exact Hmember].
    destruct (Json.isNull found); [exact Hmember |].
    unfold Field.rowsToScroll_value in Hmember.
    destruct (Json.isInt found); [exact Hmember | congruence]. }
  split; [| split].
  - intros s. unfold LayerJson_rowsToScroll, Json.index, JsonKey.
    cbn [Json.find].
    destruct (m !! RowsToScrollKey) as [found |]; [| cbn; eauto].
    destruct (Json.to_bool found); [| eauto].
    destruct (Json.isInt found) eqn:Hint; [| eauto].
    destruct (isInt_asInt found Hint) as [i ->]. eauto.
  - exact Hcases.
  - intros s s' Hkey Hlayer. specialize (Hcases s s' Hlayer).
    now rewrite Hkey in Hcases.
Qed.

Lemma LayerJson_rowsToScroll_cases_witness :
  _RowsToScroll
    (final (LayerJson (H := plain_externals)
              (Json.objectValue {[ "rowsToScroll" := Json.stringValue "system" ]})
              (set_RowsToScroll 5 GlobalAppSettings_ctor))) = 0.
Proof.
  exact (proj2 (proj2 (LayerJson_rowsToScroll_cases (H := plain_externals)
                         {[ "rowsToScroll" := Json.stringValue "system" ]}))
           (set_RowsToScroll 5 GlobalAppSettings_ctor)
           (final (LayerJson
                     (Json.objectValue
                        {[ "rowsToScroll" := Json.stringValue "system" ]})
                     (set_RowsToScroll 5 GlobalAppSettings_ctor)))
           eq_refl eq_refl).
Defined.
Lemma seq_cong {S A B : Type} (a : stmt S A) (k k' : stmt S B) (s : S) :
  (forall s1, k s1 = k' s1) -> (a >> k) s = (a >> k') s.
Proof. intros Hk. unfold seq. destruct (a s); [apply Hk | reflexivity]. Qed.

Lemma seq_done_cong {S A B : Type} (a : stmt S A) (k k' : stmt S B) (s : S) :
  (forall s1, k s1 = k' s1) -> (a >> k) s = ((a >> done) >> k') s.
Proof.
  intros Hk. unfold seq, done. destruct (a s); [apply Hk | reflexivity].
Qed.

(** [LayerJson] is the statements of its members in order, then the key
    bindings. *)
Lemma LayerJson_members `{Externals} (json : Json.Value) (s : GlobalAppSettings) :
  LayerJson json s
    = layer_members Field.all json (LayerJson_keybindings json) s.
Proof.
  unfold LayerJson, Field.all. cbn [layer_members layer_member].
  repeat (first [apply seq_done_cong | apply seq_cong]; intros ?).
  reflexivity.
Qed.

Lemma seq_thrown {S A B : Type} (a : stmt S A) (k : A -> stmt S B)
    (s s' : S) (e : exception) :
  seq a k s = Thrown s' e ->
  a s = Thrown s' e \/ exists s1 r1, a s = Returned s1 r1 /\ k r1 s1 = Thrown s' e.
Proof.
  unfold seq. destruct (a s) as [s1 r1 | s1 e1]; intros Hk;
    [right; eauto | left; now injection Hk as -> ->].
Qed.

Section Members.
Context `{Externals}.

Lemma on_member_thrown {T R : Type} (get : GlobalAppSettings -> T)
    (set : T -> GlobalAppSettings -> GlobalAppSettings)
    (call : T -> outcome T R) (s s' : GlobalAppSettings) (e : exception) :
  on_member get set call s = Thrown s' e ->
  exists v, call (get s) = Thrown v e /\ s' = set v s.
Proof.
  unfold on_member. destruct (call (get s)) as [v r | v e']; [discriminate |].
  intros [= <- <-]. eauto.
Qed.

(** [GetValueForKey] on an object, when it throws: the key gives a member
    that [CanConvert] rejects or on which [FromJson] throws, and the target
    is what it was. *)
Lemma GetValueForKey_thrown_given {T : Type} `{ConversionTrait T}
    (m : gmap string Json.Value) (key : string) (target v : T) (e : exception) :
  GetValueForKey (Json.objectValue m) key target = Thrown v e ->
  v = target /\
  exists found inner,
    given m key = Some found /\ e = KeyedException key inner /\
    ((CanConvert found = false /\ inner = TypeMismatchException) \/
     (CanConvert found = true /\ FromJson found = Throw inner)).
Proof.
  unfold GetValueForKey, given. cbn [Json.find].
  destruct (m !! key) as [found |]; [| discriminate].
  unfold get_value, GetValueFor_T, GetValue, Json.to_bool.
  destruct (Json.isNull found); cbn [negb]; [discriminate |].
  destruct (CanConvert found) eqn:Hcan; cbn [negb].
  - destruct (FromJson found) as [v' | inner] eqn:Hfrom; [discriminate |].
    intros [= <- <-]. split; [reflexivity |].
    exists found, inner. auto.
  - intros [= <- <-]. split; [reflexivity |].
    exists found, TypeMismatchException. auto.
Qed.

Lemma LayerJson_rowsToScroll_thrown (m : gmap string Json.Value)
    (s s' : GlobalAppSettings) (e : exception) :
  LayerJson_rowsToScroll (Json.objectValue m) s <> Thrown s' e.
Proof.
  unfold LayerJson_rowsToScroll, Json.index, JsonKey. cbn [Json.find].
  destruct (m !! RowsToScrollKey) as [found |]; [| discriminate].
  destruct (Json.to_bool found); [| discriminate].
  destruct (Json.isInt found) eqn:Hint; [| discriminate].
  destruct (isInt_asInt _ Hint) as [i ->]. discriminate.
Qed.

Ltac member_step Hstep :=
  unfold layer_member in Hstep;
  first
    [ apply seq_returned in Hstep as (? & ? & Hstep & [= <-]);
      apply on_member_returned in Hstep as (? & Hstep & ->);
      apply GetValueForKey_given in Hstep
    | apply LayerJson_rowsToScroll_returned in Hstep as (? & -> & Hstep) ].

(** A member's statement that returns has filled its member from what the
    key gives and has touched nothing else. *)
Lemma layer_member_returned (m : gmap string Json.Value) (f : Field.t)
    (s s' : GlobalAppSettings) :
  layer_member f (Json.objectValue m) s = Returned s' tt ->
  layered m f s s' /\
  (forall g, g <> f -> Field.get g s' = Field.get g s) /\
  _keybindings s' = _keybindings s /\
  _keybindingsWarnings s' = _keybindingsWarnings s.
Proof.
  intros Hstep. unfold layered.
  destruct f; member_step Hstep;
    (split; [exact Hstep | split; [| split; reflexivity]]);
    intros g Hg; destruct g; try reflexivity; congruence.
Qed.

(** A member's statement that throws leaves the settings as they were. *)
Lemma layer_member_thrown (m : gmap string Json.Value) (f : Field.t)
    (s s' : GlobalAppSettings) (e : exception) :
  layer_member f (Json.objectValue m) s = Thrown s' e ->
  s' = s /\
  exists found inner,
    given m (Field.key f) = Some found /\
    e = KeyedException (Field.key f) inner /\
    ((can_convert f found = false /\ inner = TypeMismatchException) \/
     (can_convert f found = true /\ Field.convert f found = Throw inner)).
Proof.
  intros Hstep.
  destruct f; unfold layer_member in Hstep;
    try (now apply LayerJson_rowsToScroll_thrown in Hstep);
    (apply seq_thrown in Hstep as [Hstep | (? & ? & _ & [=])]);
    apply on_member_thrown in Hstep as (v & Hstep & ->);
    apply GetValueForKey_thrown_given in Hstep as (-> & Hcause);
    (split; [now destruct s | exact Hcause]).
Qed.

Lemma layered_frame (m : gmap string Json.Value) (f : Field.t)
    (s1 s2 s1' s2' : GlobalAppSettings) :
  Field.get f s1 = Field.get f s2 -> Field.get f s1' = Field.get f s2' ->
  layered m f s1 s1' -> layered m f s2 s2'.
Proof.
  unfold layered. intros Hs Hs'. destruct (given m (Field.key f)); congruence.
Qed.

Lemma layer_members_returned (m : gmap string Json.Value) (fs : list Field.t)
    (s s' : GlobalAppSettings) :
  List.NoDup fs ->
  layer_members fs (Json.objectValue m) done s = Returned s' tt ->
  (forall g, In g fs -> layered m g s s') /\
  (forall g, ~ In g fs -> Field.get g s' = Field.get g s) /\
  _keybindings s' = _keybindings s /\
  _keybindingsWarnings s' = _keybindingsWarnings s.
Proof.
  revert s. induction fs as [| f fs IH]; intros s Hdup; cbn [layer_members].
  - intros [= <-]. split; [intros g [] | repeat split].
  - apply List.NoDup_cons_iff in Hdup as [Hf Hdup].
    intros (s1 & [] & Hstep & Hrest)%seq_returned.
    apply layer_member_returned in Hstep as (Hlayered & Hframe & Hkb & Hw).
    destruct (IH s1 Hdup Hrest) as (Hin & Hout & Hkb' & Hw').
    split; [| split; [| split; congruence]].
    + intros g [<- | Hg].
      * apply (layered_frame m f s s s1 s'); [reflexivity | | exact Hlayered].
        symmetry. now apply Hout.
      * apply (layered_frame m g s1 s s' s'); [| reflexivity | now apply Hin].
        apply Hframe. intros ->. contradiction.
    + intros g Hg. rewrite Hout by (intros Hin'; apply Hg; now right).
      apply Hframe. intros ->. apply Hg. now left.
Qed.

Lemma layer_members_thrown (json : Json.Value) (fs : list Field.t)
    (s s' : GlobalAppSettings) (e : exception) :
  layer_members fs json done s = Thrown s' e ->
  exists before f after s1,
    fs = (before ++ f :: after)%list /\
    layer_members before json done s = Returned s1 tt /\
    layer_member f json s1 = Thrown s' e.
Proof.
  revert s. induction fs as [| f fs IH]; intros s; cbn [layer_members];
    [discriminate |].
  intros [Hstep | (s1 & [] & Hstep & Hrest)]%seq_thrown.
  - exists [], f, fs, s. auto.
  - destruct (IH s1 Hrest) as (before & f' & after & s2 & -> & Hbefore & Hf').
    exists (f :: before), f', after, s2. repeat split; [| exact Hf'].
    cbn [layer_members]. unfold seq. now rewrite Hstep.
Qed.

Lemma layer_members_last (json : Json.Value) (fs : list Field.t)
    (last : stmt GlobalAppSettings unit) (s : GlobalAppSettings) :
  layer_members fs json last s = (layer_members fs json done >> last) s.
Proof.
  revert s. induction fs as [| f fs IH]; intros s; cbn [layer_members].
  - reflexivity.
  - unfold seq. destruct (layer_member f json s); [| reflexivity].
    rewrite IH. reflexivity.
Qed.

Lemma Field_all_NoDup : List.NoDup Field.all.
Proof.
  unfold Field.all.
  repeat (apply List.NoDup_cons; [cbn; intuition discriminate |]).
  apply List.NoDup_nil.
Qed.

Lemma Field_all_In (f : Field.t) : In f Field.all.
Proof. destruct f; cbn; tauto. Qed.

End Members.

Section LayerJsonOutcomes.
Context `{Externals}.

Lemma LayerJson_keybindings_cases (m : gmap string Json.Value)
    (s : GlobalAppSettings) :
  LayerJson_keybindings (Json.objectValue m) s =
    match given m KeybindingsKey with
    | Some keybindings =>
        match AppKeyBindings_LayerJson keybindings (_keybindings s) with
        | Returned bindings warnings =>
            Returned
              (set_keybindingsWarnings (_keybindingsWarnings s ++ warnings)
                 (set_keybindings bindings s)) tt
        | Thrown bindings e => Thrown (set_keybindings bindings s) e
        end
    | None => Returned s tt
    end.
Proof.
  unfold LayerJson_keybindings, given, Json.index, JsonKey, Json.to_bool.
  cbn [Json.find].
  destruct (m !! KeybindingsKey) as [keybindings |]; [| reflexivity].
  now destruct (Json.isNull keybindings).
Qed.

Lemma NoDup_app_disjoint {A : Type} (l1 l2 : list A) (x : A) :
  List.NoDup (l1 ++ l2) -> In x l1 -> In x l2 -> False.
Proof.
  induction l1 as [| a l1 IH]; cbn; [tauto |].
  intros [Ha Hdup]%List.NoDup_cons_iff [<- | Hx] Hx2.
  - apply Ha. apply in_or_app. now right.
  - now apply IH.
Qed.

(** The members: a throw among their statements has stopped at one. *)
Lemma layer_members_stopped (m : gmap string Json.Value)
    (s s' : GlobalAppSettings) (e : exception) :
  layer_members Field.all (Json.objectValue m) done s = Thrown s' e ->
  stopped_at_member m s s' e.
Proof.
  intros Hmembers.
  apply layer_members_thrown
    in Hmembers as (before & f & after & s1 & Hall & Hbefore & Hf).
  apply layer_member_thrown in Hf as (-> & found & inner & Hgiven & -> & Hcause).
  pose proof Field_all_NoDup as Hdup. rewrite Hall in Hdup.
  pose proof (List.NoDup_app_remove_r _ _ Hdup) as Hdup'.
  destruct (layer_members_returned m before s s1 Hdup' Hbefore)
    as (Hin & Hout & Hkb & Hw).
  exists before, f, after, found, inner.
  repeat match goal with |- _ /\ _ => split end; try assumption;
    try reflexivity.
  intros g Hg. apply Hout. intros Hg'.
  exact (NoDup_app_disjoint _ _ g Hdup Hg' Hg).
Qed.

(** The key bindings: a throw after the members is their [LayerJson]'s. *)
Lemma LayerJson_keybindings_stopped (m : gmap string Json.Value)
    (s s1 s' : GlobalAppSettings) (e : exception) :
  layer_members Field.all (Json.objectValue m) done s = Returned s1 tt ->
  LayerJson_keybindings (Json.objectValue m) s1 = Thrown s' e ->
  stopped_at_keybindings m s s' e.
Proof.
  intros Hmembers Hlast.
  destruct (layer_members_returned m Field.all s s1 Field_all_NoDup Hmembers)
    as (Hin & _ & Hkb & Hw).
  rewrite LayerJson_keybindings_cases in Hlast.
  destruct (given m KeybindingsKey) as [keybindings |] eqn:Hgiven;
    [| discriminate].
  exists keybindings. rewrite <- Hkb.
  destruct (AppKeyBindings_LayerJson keybindings (_keybindings s1))
    as [bindings warnings | bindings e']; [discriminate |].
  injection Hlast as <- <-.
  repeat match goal with |- _ /\ _ => split end; try reflexivity.
  - exact Hgiven.
  - intros g.
    apply (layered_frame m g s s s1 _);
      [reflexivity | destruct g; reflexivity | apply Hin, Field_all_In].
  - exact Hw.
Qed.

(** X1. When [LayerJson] throws on an object it has stopped either at a
    member, with [KeyedException] for the member's key, the members before
    it filled and everything from it on untouched, or in the key bindings,
    with every member filled. *)
Theorem LayerJson_stops (m : gmap string Json.Value)
    (s s' : GlobalAppSettings) (e : exception) :
  LayerJson (Json.objectValue m) s = Thrown s' e ->
  stopped_at_member m s s' e \/ stopped_at_keybindings m s s' e.
Proof.
  rewrite LayerJson_members, layer_members_last.
  intros [Hmembers | (s1 & [] & Hmembers & Hlast)]%seq_thrown.
  - left. now apply layer_members_stopped.
  - right. now apply (LayerJson_keybindings_stopped m s s1).
Qed.

(** X2. The warnings of the key bindings pile up: a [LayerJson] that
    returns has appended what the [LayerJson] of the key bindings returned
    for the member under ["keybindings"] to the warnings collected before,
    and has left bindings and warnings alone when that member is missing
    or null. *)
Theorem LayerJson_collects_warnings (m : gmap string Json.Value)
    (s s' : GlobalAppSettings) :
  LayerJson (Json.objectValue m) s = Returned s' tt ->
  match given m KeybindingsKey with
  | Some keybindings =>
      exists warnings,
        AppKeyBindings_LayerJson keybindings (_keybindings s)
          = Returned (GetKeybindings s') warnings /\
        GetKeybindingsWarnings s' = (GetKeybindingsWarnings s ++ warnings)%list
  | None =>
      GetKeybindings s' = GetKeybindings s /\
      GetKeybindingsWarnings s' = GetKeybindingsWarnings s
  end.
Proof.
  unfold GetKeybindings, GetKeybindingsWarnings.
  rewrite LayerJson_members, layer_members_last.
  intros (s1 & [] & Hmembers & Hlast)%seq_returned.
  destruct (layer_members_returned m Field.all s s1 Field_all_NoDup Hmembers)
    as (_ & _ & Hkb & Hw).
  rewrite LayerJson_keybindings_cases in Hlast.
  destruct (given m KeybindingsKey) as [keybindings |].
  - rewrite <- Hkb, <- Hw.
    destruct (AppKeyBindings_LayerJson keybindings (_keybindings s1))
      as [bindings warnings | bindings e']; [| discriminate].
    injection Hlast as <-. exists warnings. split; reflexivity.
  - injection Hlast as <-. auto.
Qed.

End LayerJsonOutcomes.

Lemma LayerJson_stops_witness :
  stopped_at_member (H := plain_externals)
    (<[ "alwaysShowTabs" := Json.booleanValue false ]>
       (<[ "initialRows" := Json.stringValue "oops" ]>
          {[ "initialCols" := Json.intValue 80 ]}))
    GlobalAppSettings_ctor
    (set_AlwaysShowTabs false GlobalAppSettings_ctor)
    (KeyedException "initialRows" TypeMismatchException) \/
  stopped_at_keybindings (H := plain_externals)
    (<[ "alwaysShowTabs" := Json.booleanValue false ]>
       (<[ "initialRows" := Json.stringValue "oops" ]>
          {[ "initialCols" := Json.intValue 80 ]}))
    GlobalAppSettings_ctor
    (set_AlwaysShowTabs false GlobalAppSettings_ctor)
    (KeyedException "initialRows" TypeMismatchException).
Proof.
  apply (LayerJson_stops (H := plain_externals)). vm_compute. reflexivity.
Defined.

Section Given.
Context `{Externals}.

(** [GetValueForKey] on an object sees the member under the key only
    through [given]: a null member is as good as none. *)
Lemma GetValueForKey_via_given {T : Type} `{ConversionTrait T}
    (m : gmap string Json.Value) (key : string) (target : T) :
  GetValueForKey (Json.objectValue m) key target =
    match given m key with
    | Some found =>
        match GetValue found target with
        | Returned target' b => Returned target' b
        | Thrown target' e => Thrown target' (KeyedException key e)
        end
    | None => Returned target false
    end.
Proof.
  unfold GetValueForKey, given. cbn [Json.find].
  destruct (m !! key) as [found |]; [| reflexivity].
  destruct (Json.isNull found) eqn:Hnull; [| reflexivity].
  unfold get_value, GetValueFor_T. now rewrite GetValue_null.
Qed.

Lemma LayerJson_rowsToScroll_via_given (m : gmap string Json.Value)
    (s : GlobalAppSettings) :
  LayerJson_rowsToScroll (Json.objectValue m) s =
    match given m RowsToScrollKey with
    | Some found =>
        match Field.rowsToScroll_value found with
        | Ok i => Returned (set_RowsToScroll i s) tt
        | Throw e => Thrown s e
        end
    | None => Returned s tt
    end.
Proof.
  unfold LayerJson_rowsToScroll, given, Json.index, JsonKey, Json.to_bool,
    Field.rowsToScroll_value.
  cbn [Json.find].
  destruct (m !! RowsToScrollKey) as [found |]; [| reflexivity].
  destruct (Json.isNull found); [reflexivity |]. cbn [negb].
  now destruct (Json.isInt found).
Qed.

Lemma layer_member_given (m m' : gmap string Json.Value) (f : Field.t)
    (s : GlobalAppSettings) :
  given m (Field.key f) = given m' (Field.key f) ->
  layer_member f (Json.objectValue m) s = layer_member f (Json.objectValue m') s.
Proof.
  intros Hgiven.
  destruct f; cbn [Field.key] in Hgiven; unfold layer_member;
    rewrite ?LayerJson_rowsToScroll_via_given; unfold seq, on_member;
    rewrite ?GetValueForKey_via_given, ?Hgiven; reflexivity.
Qed.

Lemma layer_members_given (m m' : gmap string Json.Value) (fs : list Field.t)
    (last last' : stmt GlobalAppSettings unit) (s : GlobalAppSettings) :
  (forall f, In f fs -> given m (Field.key f) = given m' (Field.key f)) ->
  (forall s1, last s1 = last' s1) ->
  layer_members fs (Json.objectValue m) last s
    = layer_members fs (Json.objectValue m') last' s.
Proof.
  intros Hgiven Hlast. revert s.
  induction fs as [| f fs IH]; intros s; cbn [layer_members]; [apply Hlast |].
  unfold seq. rewrite (layer_member_given m m' f s) by (apply Hgiven; now left).
  destruct (layer_member f (Json.objectValue m') s); [| reflexivity].
  apply IH. intros g Hg. apply Hgiven. now right.
Qed.

(** X3. [LayerJson] treats a null member as a missing key throughout, the
    key bindings included: two objects that give the same documents under
    the known keys end [LayerJson] the same way, so an object whose known
    keys are all missing or null makes it return with nothing changed. *)
Theorem LayerJson_null_is_missing (m : gmap string Json.Value)
    (s : GlobalAppSettings) :
  (forall m' : gmap string Json.Value,
     (forall key, In key known_keys -> given m key = given m' key) ->
     LayerJson (Json.objectValue m) s = LayerJson (Json.objectValue m') s) /\
  ((forall key, In key known_keys -> given m key = None) ->
   LayerJson (Json.objectValue m) s = Returned s tt).
Proof.
  assert (Hsame : forall m' : gmap string Json.Value,
     (forall key, In key known_keys -> given m key = given m' key) ->
     LayerJson (Json.objectValue m) s = LayerJson (Json.objectValue m') s).
  { intros m' Hgiven. rewrite !LayerJson_members.
    apply layer_members_given.
    - intros f Hf. apply Hgiven. unfold known_keys. right.
      now apply in_map.
    - intros s1. rewrite !LayerJson_keybindings_cases.
      rewrite (Hgiven KeybindingsKey) by now left. reflexivity. }
  split; [exact Hsame |].
  intros Hnone. rewrite <- (LayerJson_no_known_key s). apply Hsame.
  intros key Hkey. rewrite (Hnone key Hkey). unfold given.
  now rewrite lookup_empty.
Qed.

(** X4. On the null document [LayerJson] returns with nothing changed, and
    [ToJson] gives the null document whatever the settings: reading back
    what [ToJson] wrote gives the settings of the constructor. *)
Theorem FromJson_ToJson (s : GlobalAppSettings) :
  LayerJson Json.nullValue s = Returned s tt /\
  GlobalAppSettings_FromJson (GlobalAppSettings_ToJson s)
    = Returned GlobalAppSettings_ctor tt.
Proof.
  split; [now destruct s | reflexivity].
Qed.

(** X5. A document that is neither an object nor null (a string, a number,
    a boolean, an array) makes [find] throw: [GetValueForKey] throws that
    [LogicError] as it is, without the key, and so does [LayerJson], at its
    first statement; the target and the settings are what they were. *)
Theorem not_an_object_throws (json : Json.Value) :
  Json.isNull json = false -> isObject json = false ->
  (forall (T : Type) (overload : GetValueFor T) (key : string) (target : T),
     GetValueForKey json key target = Thrown target find_requires_object) /\
  (forall s : GlobalAppSettings,
     LayerJson json s = Thrown s find_requires_object).
Proof.
  intros Hnull Hobject. destruct json; try discriminate;
    (split; [reflexivity | intros settings; now destruct settings]).
Qed.

End Given.

Lemma LayerJson_null_is_missing_witness :
  LayerJson (H := plain_externals)
    (Json.objectValue (<[ "initialRows" := Json.nullValue ]>
                         {[ "theme" := Json.nullValue ]}))
    GlobalAppSettings_ctor
  = Returned GlobalAppSettings_ctor tt.
Proof.
  apply (proj2 (LayerJson_null_is_missing (H := plain_externals)
                  (<[ "initialRows" := Json.nullValue ]>
                     {[ "theme" := Json.nullValue ]}) GlobalAppSettings_ctor)).
  unfold known_keys. cbn [map Field.all Field.key].
  intros key Hkey.
  repeat destruct Hkey as [<- | Hkey]; try reflexivity. destruct Hkey.
Defined.

Lemma not_an_object_throws_witness :
  LayerJson (H := plain_externals) (Json.arrayValue []) GlobalAppSettings_ctor
    = Thrown GlobalAppSettings_ctor find_requires_object.
Proof.
  apply (proj2 (not_an_object_throws (H := plain_externals) (Json.arrayValue [])
                  eq_refl eq_refl)).
Defined.

Section Composition.
Context `{Externals}.

(** What [GetValue] returns does not depend on the target it is given. *)
Lemma GetValue_any_target {T : Type} `{ConversionTrait T}
    (json : Json.Value) (target target2 v : T) (b : bool) :
  GetValue json target = Returned v b ->
  GetValue json target2 = Returned (if b then v else target2) b.
Proof.
  unfold GetValue. destruct (Json.to_bool json); [| now intros [= _ <-]].
  destruct (negb (CanConvert json)); [discriminate |].
  destruct (FromJson json); [| discriminate]. now intros [= <- <-].
Qed.

(** A member's statement that has returned returns again, and changes
    nothing, on settings that hold the member's value already. *)
Lemma layer_member_again (m : gmap string Json.Value) (f : Field.t)
    (s s1 s2 : GlobalAppSettings) :
  layer_member f (Json.objectValue m) s = Returned s1 tt ->
  Field.get f s2 = Field.get f s1 ->
  layer_member f (Json.objectValue m) s2 = Returned s2 tt.
Proof.
  destruct f; unfold layer_member;
    rewrite ?LayerJson_rowsToScroll_via_given; unfold seq, on_member, done;
    rewrite ?GetValueForKey_via_given;
    match goal with |- context [given m ?key] => destruct (given m key) end;
    cbn [Field.get];
    try (intros _ _; now destruct s2);
    try match goal with
        | |- context [GetValue ?found (?get s)] =>
            destruct (GetValue found (get s)) as [x b | x e] eqn:Hget;
            [| discriminate];
            rewrite (GetValue_any_target found _ (get s2) x b Hget);
            intros [= <-]; destruct b
        | |- context [Field.rowsToScroll_value ?found] =>
            destruct (Field.rowsToScroll_value found); [| discriminate];
            intros [= <-]
        end;
    cbn; intros <-; now destruct s2.
Qed.

Lemma layer_members_again (m : gmap string Json.Value) (fs : list Field.t)
    (s s1 s2 : GlobalAppSettings) :
  List.NoDup fs ->
  layer_members fs (Json.objectValue m) done s = Returned s1 tt ->
  (forall f, In f fs -> Field.get f s2 = Field.get f s1) ->
  layer_members fs (Json.objectValue m) done s2 = Returned s2 tt.
Proof.
  revert s. induction fs as [| f fs IH]; intros s Hdup; cbn [layer_members];
    [reflexivity |].
  apply List.NoDup_cons_iff in Hdup as [Hf Hdup].
  intros (sa & [] & Hstep & Hrest)%seq_returned Hsame.
  destruct (layer_members_returned m fs sa s1 Hdup Hrest) as (_ & Hout & _).
  unfold seq. rewrite (layer_member_again m f s sa s2 Hstep).
  - apply (IH sa Hdup Hrest). intros g Hg. apply Hsame. now right.
  - rewrite <- (Hout f Hf). apply Hsame. now left.
Qed.

(** X6. Layering the same object once more redoes nothing but the key
    bindings: after a [LayerJson] that returned, a second [LayerJson] of
    the same object goes through the members without a throw and without a
    change, and ends as the statement of the key bindings does; every
    member keeps its value. *)
Theorem LayerJson_again (m : gmap string Json.Value)
    (s s1 : GlobalAppSettings) :
  LayerJson (Json.objectValue m) s = Returned s1 tt ->
  LayerJson (Json.objectValue m) s1
    = LayerJson_keybindings (Json.objectValue m) s1 /\
  (forall s2, LayerJson (Json.objectValue m) s1 = Returned s2 tt ->
     forall f, Field.get f s2 = Field.get f s1).
Proof.
  intros Hfirst.
  assert (Hsecond : LayerJson (Json.objectValue m) s1
                    = LayerJson_keybindings (Json.objectValue m) s1).
  { rewrite LayerJson_members, layer_members_last in Hfirst.
    apply seq_returned in Hfirst as (sa & [] & Hmembers & Hlast).
    apply LayerJson_keybindings_returned in Hlast as (bindings & warnings & ->).
    rewrite LayerJson_members, layer_members_last. unfold seq at 1.
    rewrite (layer_members_again m Field.all s sa _ Field_all_NoDup Hmembers);
      [reflexivity |].
    intros f _. now destruct f. }
  split; [exact Hsecond |].
  intros s2 Hreturned f. rewrite Hsecond in Hreturned.
  apply LayerJson_keybindings_returned in Hreturned as (bindings & warnings & ->).
  now destruct f.
Qed.



(** X8. Objects that give values to different members can be layered in
    either order: every member ends with the same value. *)
Theorem LayerJson_commutes (m1 m2 : gmap string Json.Value)
    (s s1 s12 s2 s21 : GlobalAppSettings) :
  (forall f, given m1 (Field.key f) = None \/ given m2 (Field.key f) = None) ->
  LayerJson (Json.objectValue m1) s = Returned s1 tt ->
  LayerJson (Json.objectValue m2) s1 = Returned s12 tt ->
  LayerJson (Json.objectValue m2) s = Returned s2 tt ->
  LayerJson (Json.objectValue m1) s2 = Returned s21 tt ->
  forall f, Field.get f s12 = Field.get f s21.
Proof.
  intros Hdisjoint H1 H12 H2 H21 f.
  apply (LayerJson_member _ _ _ f) in H1, H12, H2, H21.
  destruct (Hdisjoint f) as [Hnone | Hnone]; rewrite Hnone in *.
  - destruct (given m2 (Field.key f)); congruence.
  - destruct (given m1 (Field.key f)); congruence.
Qed.

End Composition.

(** ** The conversions of the built-in types *)

Lemma fraction_positive (d : spec_float) (n q : Z) :
  Json.fraction d = Some (n, q) -> 0 < q.
Proof.
  destruct d as [sign | sign | | sign mant e]; cbn; try discriminate.
  - intros [= <- <-]. lia.
  - destruct (0 <=? e) eqn:He; intros [= <- <-]; [lia |].
    apply Z.leb_gt in He. apply Z.pow_pos_nonneg; lia.
Qed.

Lemma quot_in_range (n q lo hi : Z) :
  0 < q -> lo <= 0 <= hi -> lo * q <= n <= hi * q -> lo <= Z.quot n q <= hi.
Proof.
  intros Hq Hzero [Hlo Hhi].
  destruct (Z.le_gt_cases 0 n) as [Hn | Hn].
  - rewrite Z.quot_div_nonneg by lia. split.
    + pose proof (Z.div_pos n q Hn Hq). lia.
    + apply Z.div_le_upper_bound; lia.
  - replace n with (- - n) by lia. rewrite Z.quot_opp_l by lia.
    rewrite Z.quot_div_nonneg by lia. split.
    + assert (- n / q <= - lo) by (apply Z.div_le_upper_bound; lia). lia.
    + pose proof (Z.div_pos (- n) q ltac:(lia) Hq). lia.
Qed.

Lemma truncate_in_range (d : spec_float) (lo hi : Z) :
  lo <= 0 <= hi -> Json.InRange d lo hi = true ->
  lo <= Json.truncate d <= hi.
Proof.
  unfold Json.InRange, Json.truncate. intros Hzero.
  destruct (Json.fraction d) as [[n q] |] eqn:Hfraction; [| discriminate].
  intros [Hlo%Z.leb_le Hhi%Z.leb_le]%andb_true_iff.
  apply quot_in_range; eauto using fraction_positive.
Qed.

(** [asInt] returns nothing but the values of an [int]. *)
Lemma asInt_is_int (json : Json.Value) (v : Z) :
  representable json -> Json.asInt json = Ok v -> is_int v.
Proof.
  unfold is_int, INT_MIN, INT_MAX.
  destruct json as [| i | u | d | text | b | items | members]; cbn;
    try discriminate.
  - intros _ [= <-]. lia.
  - unfold Json.assert_then, Json.minInt, Json.maxInt.
    destruct (_ && _) eqn:Hrange; [| discriminate]. intros _ [= <-]. lia.
  - unfold Json.assert_then, Json.maxInt.
    destruct (u <=? _) eqn:Hrange; [| discriminate]. intros Hu [= <-]. lia.
  - unfold Json.assert_then.
    destruct (Json.InRange _ _ _) eqn:Hrange; [| discriminate].
    intros _ [= <-].
    apply (truncate_in_range d Json.minInt Json.maxInt);
      [unfold Json.minInt, Json.maxInt; lia | exact Hrange].
  - intros _ [= <-]. destruct b; lia.
Qed.

Lemma rowsToScroll_returns (json : Json.Value) :
  exists i, Field.rowsToScroll_value json = Ok i.
Proof.
  unfold Field.rowsToScroll_value.
  destruct (Json.isInt json) eqn:Hint; [now apply isInt_asInt | eauto].
Qed.

Section Totality.
Context `{Externals}.

Lemma total_string : total ConversionTrait_string.
Proof. intros [] Hcan; try discriminate. cbn. eauto. Qed.

Lemma total_bool : total ConversionTrait_bool.
Proof. intros [] Hcan; try discriminate. cbn. eauto. Qed.

Lemma total_int : total ConversionTrait_int.
Proof. intros json Hcan. now apply isInt_asInt. Qed.

Lemma total_float : total ConversionTrait_float.
Proof. intros [] Hcan; try discriminate; cbn; eauto. Qed.

Lemma total_double : total ConversionTrait_double.
Proof. intros [] Hcan; try discriminate; cbn; eauto. Qed.

Lemma total_KeyValueMapper {T : Type} (a : mappings_array T) :
  total (KeyValueMapper a).
Proof. intros json _. cbn. eauto. Qed.

Lemma total_LaunchPosition : total ConversionTrait_LaunchPosition.
Proof. intros [] Hcan; try discriminate. cbn. eauto. Qed.

(** X9. The conversions to [std::string], [bool], [int], [float],
    [double], the enums and [LaunchPosition] return on every document
    their [CanConvert] accepts; so for such a target [GetValue] throws
    nothing but [TypeMismatchException], and only on a document that
    [CanConvert] rejects. *)
Theorem GetValue_only_TypeMismatch :
  total ConversionTrait_string /\ total ConversionTrait_bool /\
  total ConversionTrait_int /\ total ConversionTrait_float /\
  total ConversionTrait_double /\
  (forall (T : Type) (a : mappings_array T), total (KeyValueMapper a)) /\
  total ConversionTrait_LaunchPosition /\
  (forall (T : Type) (trait : ConversionTrait T), total trait ->
   forall (json : Json.Value) (target target' : T) (e : exception),
     GetValue json target = Thrown target' e ->
     e = TypeMismatchException /\ CanConvert json = false).
Proof.
  repeat match goal with |- _ /\ _ => split end;
    auto using total_string, total_bool, total_int, total_float, total_double,
      total_LaunchPosition.
  - intros T a. apply total_KeyValueMapper.
  - intros T trait Htotal json target target' e. unfold GetValue.
    destruct (Json.to_bool json); [| discriminate].
    destruct (CanConvert json) eqn:Hcan; cbn [negb].
    + destruct (Htotal json Hcan) as [v ->]. discriminate.
    + now intros [= _ <-].
Qed.

(** X10. Every exception of [LayerJson] on an object is one of four: a
    [KeyedException] with [TypeMismatchException] for a known key whose
    member has the wrong kind; a [KeyedException] with what the GUID
    parser threw on the string under ["defaultProfile"]; one with what
    [til::u8u16] threw on the string under ["wordDelimiters"]; or what
    the [LayerJson] of the key bindings threw. *)
Theorem LayerJson_exceptions (m : gmap string Json.Value)
    (s s' : GlobalAppSettings) (e : exception) :
  LayerJson (Json.objectValue m) s = Thrown s' e ->
  (exists f found,
     given m (Field.key f) = Some found /\ can_convert f found = false /\
     e = KeyedException (Field.key f) TypeMismatchException) \/
  (exists text inner,
     given m DefaultProfileKey = Some (Json.stringValue text) /\
     GuidFromString text = Throw inner /\
     e = KeyedException DefaultProfileKey inner) \/
  (exists text inner,
     given m WordDelimitersKey = Some (Json.stringValue text) /\
     u8u16 text = Throw inner /\
     e = KeyedException WordDelimitersKey inner) \/
  (exists keybindings bindings,
     given m KeybindingsKey = Some keybindings /\
     AppKeyBindings_LayerJson keybindings (_keybindings s) = Thrown bindings e).
Proof.
  rewrite LayerJson_members, layer_members_last.
  intros [Hmember | (s1 & [] & Hmembers & Hbindings)]%seq_thrown;
    [apply layer_members_stopped in Hmember
    | apply (LayerJson_keybindings_stopped m s s1 _ _ Hmembers) in Hbindings].
  - destruct Hmember
      as (before & f & after & found & inner & _ & Hgiven & -> & Hcause & _).
    destruct Hcause as [[Hcan ->] | [Hcan Hthrow]]; [left; eauto |].
    destruct f; cbn [can_convert Field.convert Field.key] in *;
      try (match type of Hthrow with
           | FromJson found = _ =>
               first
                 [ cbn in Hthrow; discriminate Hthrow
                 | destruct (total_bool found Hcan) as [v Hv]; congruence
                 | destruct (total_int found Hcan) as [v Hv]; congruence
                 | destruct (total_LaunchPosition found Hcan) as [v Hv];
                   congruence ]
           end).
    + right. left. destruct found; try discriminate. eauto.
    + exfalso. destruct (rowsToScroll_returns found) as [i Hi]. congruence.
    + right. right. left. destruct found; try discriminate. eauto.
  - destruct Hbindings as (keybindings & Hgiven & Hthrown & _). eauto 10.
Qed.

End Totality.

Lemma real_is_int (d : spec_float) (v : Z) :
  Json.InRange d Json.minInt Json.maxInt && Json.IsIntegral d = true /\
  Json.truncate d = v <->
  is_int v /\ real_is d v.
Proof.
  unfold Json.InRange, Json.IsIntegral, Json.truncate, real_is, is_int,
    INT_MIN, INT_MAX, Json.minInt, Json.maxInt.
  destruct (Json.fraction d) as [[n q] |] eqn:Hfraction;
    [| cbn; intuition discriminate].
  pose proof (fraction_positive d n q Hfraction) as Hq.
  split.
  - intros [[[Hlo%Z.leb_le Hhi%Z.leb_le]%andb_true_iff Hmod%Z.eqb_eq]%andb_true_iff
            <-].
    assert (Hn : n = n / q * q).
    { rewrite Z.mul_comm. apply Z_div_exact_full_2; lia. }
    assert (Hquot : Z.quot n q = n / q).
    { rewrite Hn at 1. apply Z.quot_mul. lia. }
    rewrite Hquot. split; [| exact Hn]. nia.
  - intros [Hv ->]. split.
    + apply andb_true_iff. split.
      * apply andb_true_iff. split; apply Z.leb_le; nia.
      * apply Z.eqb_eq. apply Z.mod_mul. lia.
    + apply Z.quot_mul. lia.
Qed.

(** X11. [GetValue] coerces nothing, although [asBool], [asString] and
    [asInt] would: a [bool] target takes a boolean document only, a
    [std::string] target a string document only, and an [int] target an
    integer document (signed, unsigned, or a real whose value is an
    integer) whose value is that of an [int]; the target gets exactly the
    value of the document. *)
Theorem GetValue_coerces_nothing `{Externals} (json : Json.Value) :
  (forall target v : bool,
     GetValue json target = Returned v true <-> json = Json.booleanValue v) /\
  (forall target v : string,
     GetValue json target = Returned v true <-> json = Json.stringValue v) /\
  (forall target v : Z, representable json ->
     (GetValue json target = Returned v true <->
      is_int v /\
      (json = Json.intValue v \/ json = Json.uintValue v \/
       exists d, json = Json.realValue d /\ real_is d v))).
Proof.
  split; [| split].
  - intros target v.
    destruct json; cbn; split; try discriminate; congruence.
  - intros target v.
    destruct json; cbn; split; try discriminate; congruence.
  - intros target v Hjson. unfold GetValue, is_int, INT_MIN, INT_MAX.
    destruct json as [| i | u | d | text | b | items | members];
      cbn -[Json.minInt Json.maxInt Z.pow Z.sub] in *;
      try (split; [discriminate | intros [_ [[=] | [[=] | (d' & [=] & _)]]]]).
    + unfold Json.assert_then, Json.minInt, Json.maxInt.
      destruct (_ && _) eqn:Hrange; cbn.
      * apply andb_true_iff in Hrange as [Hlo%Z.leb_le Hhi%Z.leb_le].
        split.
        -- intros [= <-]. split; [lia | now left].
        -- intros [_ [[= ->] | [[=] | (d' & [=] & _)]]]. reflexivity.
      * split; [discriminate |].
        intros [Hv [[= ->] | [[=] | (d' & [=] & _)]]].
        apply andb_false_iff in Hrange as [Hlo%Z.leb_gt | Hhi%Z.leb_gt]; lia.
    + unfold Json.assert_then, Json.maxInt.
      destruct (u <=? _) eqn:Hrange; cbn.
      * apply Z.leb_le in Hrange. split.
        -- intros [= <-]. split; [lia | right; now left].
        -- intros [_ [[=] | [[= ->] | (d' & [=] & _)]]]. reflexivity.
      * apply Z.leb_gt in Hrange. split; [discriminate |].
        intros [Hv [[=] | [[= ->] | (d' & [=] & _)]]]. lia.
    + pose proof (real_is_int d v) as Hreal.
      unfold is_int, INT_MIN, INT_MAX in Hreal.
      unfold Json.assert_then.
      destruct (Json.InRange d Json.minInt Json.maxInt) eqn:Hrange;
        destruct (Json.IsIntegral d) eqn:Hintegral; cbn [andb negb] in *.
      * split.
        -- intros [= Hv]. destruct (proj1 Hreal (conj eq_refl Hv)).
           split; [assumption |]. right. right. eauto.
        -- intros [Hv [[=] | [[=] | (d' & [= <-] & Hd)]]].
           destruct (proj2 Hreal (conj Hv Hd)) as [_ ->]. reflexivity.
      * split; [discriminate |].
        intros [Hv [[=] | [[=] | (d' & [= <-] & Hd)]]].
        destruct (proj2 Hreal (conj Hv Hd)). discriminate.
      * split; [discriminate |].
        intros [Hv [[=] | [[=] | (d' & [= <-] & Hd)]]].
        destruct (proj2 Hreal (conj Hv Hd)). discriminate.
      * split; [discriminate |].
        intros [Hv [[=] | [[=] | (d' & [= <-] & Hd)]]].
        destruct (proj2 Hreal (conj Hv Hd)). discriminate.
Qed.

(** X12. [ConversionTrait<unsigned int>] tests [isInt] and converts with
    [asUInt]: an integer from 0 to [INT_MAX] is converted; a negative
    [int] passes [CanConvert] and makes [asUInt] throw its [LogicError];
    and an integer above [INT_MAX] is refused with
    [TypeMismatchException], up to [UINT_MAX] although [asUInt] would
    return it. *)
Theorem GetValue_unsigned_int (i : Z) (target : N) :
  (0 <= i <= Json.maxInt ->
     GetValue (Json.intValue i) target = Returned (Z.to_N i) true /\
     GetValue (Json.uintValue i) target = Returned (Z.to_N i) true) /\
  (Json.minInt <= i < 0 ->
     GetValue (Json.intValue i) target
       = Thrown target (LogicError "LargestInt out of UInt range")) /\
  (Json.maxInt < i ->
     GetValue (Json.intValue i) target = Thrown target TypeMismatchException /\
     GetValue (Json.uintValue i) target = Thrown target TypeMismatchException /\
     (i <= Json.maxUInt -> Json.asUInt (Json.uintValue i) = Ok i)).
Proof.
  unfold GetValue, Json.minInt, Json.maxInt, Json.maxUInt.
  cbn -[Z.pow Z.sub Z.leb]. unfold Json.assert_then, Json.minInt, Json.maxInt,
    Json.maxUInt.
  split; [| split]; intros Hi.
  - replace (- 2 ^ 31 <=? i) with true by (symmetry; apply Z.leb_le; lia).
    replace (i <=? 2 ^ 31 - 1) with true by (symmetry; apply Z.leb_le; lia).
    replace (0 <=? i) with true by (symmetry; apply Z.leb_le; lia).
    replace (i <=? 2 ^ 32 - 1) with true by (symmetry; apply Z.leb_le; lia).
    split; reflexivity.
  - replace (- 2 ^ 31 <=? i) with true by (symmetry; apply Z.leb_le; lia).
    replace (i <=? 2 ^ 31 - 1) with true by (symmetry; apply Z.leb_le; lia).
    replace (0 <=? i) with false by (symmetry; apply Z.leb_gt; lia).
    reflexivity.
  - replace (i <=? 2 ^ 31 - 1) with false by (symmetry; apply Z.leb_gt; lia).
    rewrite andb_false_r. repeat split.
    intros Hmax.
    replace (i <=? 2 ^ 32 - 1) with true by (symmetry; apply Z.leb_le; lia).
    reflexivity.
Qed.

Lemma GetValue_unsigned_int_witness :
  GetValue (Json.intValue 7) 0%N = Returned 7%N true /\
  GetValue (Json.intValue (-7)) 0%N
    = Thrown 0%N (LogicError "LargestInt out of UInt range") /\
  GetValue (Json.uintValue 3000000000) 0%N = Thrown 0%N TypeMismatchException.
Proof.
  split; [| split].
  - apply (proj1 (GetValue_unsigned_int 7 0%N)). unfold Json.maxInt. lia.
  - apply (proj1 (proj2 (GetValue_unsigned_int (-7) 0%N))).
    unfold Json.minInt. lia.
  - apply (proj2 (proj2 (GetValue_unsigned_int 3000000000 0%N))).
    unfold Json.maxInt. lia.
Defined.

(** X13. An enum is converted into a value of its mappings, whatever the
    document; and when the names of the mappings differ from one another,
    as they do for the three enums of the settings, every declared name
    is converted into its own value. *)
Theorem KeyValueMapper_declared_names {T : Type} (a : mappings_array T) :
  (forall json, In (KeyValueMapper_FromJson a json) (map snd (mappings a))) /\
  (List.NoDup (map fst (mappings a)) ->
   forall name v, In (name, v) (mappings a) ->
     FromJson (ConversionTrait := KeyValueMapper a) (Json.stringValue name) = Ok v) /\
  List.NoDup (map fst (mappings ElementTheme_mappings)) /\
  List.NoDup (map fst (mappings LaunchMode_mappings)) /\
  List.NoDup (map fst (mappings TabViewWidthMode_mappings)).
Proof.
  split; [| split; [| repeat split]].
  - intros json. unfold KeyValueMapper_FromJson.
    generalize (Detail.GetStringView json). intros name.
    assert (Hscan : forall (pairs : list (pair_type T)) (v : T),
              mappings_scan pairs name = Some v -> In v (map snd pairs)).
    { induction pairs as [| p pairs IH]; cbn; [discriminate |].
      intros v. destruct (String.eqb (fst p) name).
      - intros [= <-]. now left.
      - intros Hv. right. now apply IH. }
    destruct (mappings_scan (mappings a) name) as [v |] eqn:Hv.
    + now apply Hscan.
    + now left.
  - intros Hdup name v Hin.
    cbn [FromJson KeyValueMapper]. unfold KeyValueMapper_FromJson.
    cbn [Detail.GetStringView Json.getString].
    generalize dependent (mappings a). intros pairs.
    induction pairs as [| p pairs IH]; cbn; [contradiction |].
    intros [Hp Hdup]%List.NoDup_cons_iff [-> | Hin].
    + cbn. now rewrite String.eqb_refl.
    + destruct (String.eqb_spec (fst p) name) as [Heq | _]; [| now apply IH].
      exfalso. apply Hp. rewrite Heq.
      change name with (fst (name, v)). now apply in_map.
  - repeat (apply List.NoDup_cons; [cbn; intuition discriminate |]).
    apply List.NoDup_nil.
  - repeat (apply List.NoDup_cons; [cbn; intuition discriminate |]).
    apply List.NoDup_nil.
  - repeat (apply List.NoDup_cons; [cbn; intuition discriminate |]).
    apply List.NoDup_nil.
Qed.

(** ** Bounds *)

Lemma stoi_is_int (token : string) (n : Z) : stoi token = Ok n -> is_int n.
Proof.
  unfold stoi, is_int. destruct (strtol (c_str token)) as [v |]; [| discriminate].
  destruct (_ && _) eqn:Hrange; [| discriminate]. intros [= <-].
  apply andb_true_iff in Hrange as [Hlo%Z.leb_le Hhi%Z.leb_le]. lia.
Qed.

Lemma LaunchPosition_body_is_int (token : string) (index : Z) (ret : LaunchPosition) :
  position_is_int ret -> position_is_int (LaunchPosition_body token index ret).
Proof.
  unfold LaunchPosition_body.
  destruct (stoi token) as [position |] eqn:Hstoi; [| auto].
  apply stoi_is_int in Hstoi. intros [Hx Hy].
  destruct (index =? 0), (index =? 1); split; cbn; intros n;
    try (intros [= <-]; exact Hstoi); auto.
Qed.

Lemma LaunchPosition_loop_is_int (fuel : nat) (tokenStream : string)
    (index : Z) (ret : LaunchPosition) :
  position_is_int ret ->
  position_is_int (LaunchPosition_loop fuel tokenStream index ret).
Proof.
  revert tokenStream index ret.
  induction fuel as [| fuel IH]; intros tokenStream index ret Hret; cbn;
    [exact Hret |].
  destruct (getline tokenStream singleCharDelim) as [[token rest] |];
    [| exact Hret].
  destruct (index <? 2); [| exact Hret].
  apply IH. now apply LaunchPosition_body_is_int.
Qed.

Section Bounds.
Context `{Externals}.

Lemma LaunchPosition_FromJson_is_int (json : Json.Value) (p : LaunchPosition) :
  LaunchPosition_FromJson json = Ok p -> position_is_int p.
Proof.
  unfold LaunchPosition_FromJson.
  destruct (Json.asString valueToString json) as [text | e]; [| discriminate].
  intros Hp.
  replace p with (LaunchPosition_loop (S (String.length text)) text 0
                    {| x := None; y := None |}) by congruence.
  apply LaunchPosition_loop_is_int. split; cbn; discriminate.
Qed.

(** X14. Every string is converted into a launch position, whatever it
    holds: the conversion does not throw, [GetValue] returns true, and a
    coordinate that is present is a value of an [int]. *)
Theorem LaunchPosition_of_any_string (text : string) (target : LaunchPosition) :
  exists p,
    FromJson (Json.stringValue text) = Ok p /\
    GetValue (Json.stringValue text) target = Returned p true /\
    position_is_int p.
Proof.
  destruct (total_LaunchPosition (Json.stringValue text) eq_refl) as [p Hp].
  exists p. split; [exact Hp |]. split.
  - now apply GetValue_converted.
  - exact (LaunchPosition_FromJson_is_int (Json.stringValue text) p Hp).
Qed.

Lemma given_lookup (m : gmap string Json.Value) (key : string)
    (found : Json.Value) :
  given m key = Some found -> m !! key = Some found.
Proof.
  unfold given. destruct (m !! key) as [v |]; [| discriminate].
  destruct (Json.isNull v); [discriminate | congruence].
Qed.

(** X15. The [int] members stay values of an [int]: when the integers of
    the document are ones a [Json::Value] can hold, a [LayerJson] that
    returns keeps [_InitialRows], [_InitialCols], [_RowsToScroll] and the
    coordinates of [_InitialPosition] within the values of an [int]. *)
Theorem LayerJson_keeps_ints (m : gmap string Json.Value)
    (s s' : GlobalAppSettings) :
  (forall key found, m !! key = Some found -> representable found) ->
  ints_in_range s ->
  LayerJson (Json.objectValue m) s = Returned s' tt ->
  ints_in_range s'.
Proof.
  intros Hm (Hrows & Hcols & Hscroll & Hposition) Hlayer.
  pose proof (LayerJson_member m s s' Field.InitialRows Hlayer) as Hrows'.
  pose proof (LayerJson_member m s s' Field.InitialCols Hlayer) as Hcols'.
  pose proof (LayerJson_member m s s' Field.RowsToScroll Hlayer) as Hscroll'.
  pose proof (LayerJson_member m s s' Field.InitialPosition Hlayer) as Hposition'.
  cbn [Field.key Field.convert Field.get] in *.
  split; [| split; [| split]].
  - destruct (given m InitialRowsKey) as [found |] eqn:Hgiven;
      [| now rewrite Hrows'].
    eapply asInt_is_int; [| exact Hrows']. eauto using given_lookup.
  - destruct (given m InitialColsKey) as [found |] eqn:Hgiven;
      [| now rewrite Hcols'].
    eapply asInt_is_int; [| exact Hcols']. eauto using given_lookup.
  - destruct (given m RowsToScrollKey) as [found |] eqn:Hgiven;
      [| now rewrite Hscroll'].
    unfold Field.rowsToScroll_value in Hscroll'.
    destruct (Json.isInt found).
    + eapply asInt_is_int; [| exact Hscroll']. eauto using given_lookup.
    + injection Hscroll' as <-. unfold is_int, INT_MIN, INT_MAX. lia.
  - destruct (given m InitialPositionKey) as [found |];
      [| rewrite Hposition'; exact Hposition].
    exact (LaunchPosition_FromJson_is_int found _ Hposition').
Qed.

End Bounds.

(** ** The launch position written in decimal *)

(** [std::stoi] reads back an [int] written in decimal, and the decimal
    text of an integer has no comma. *)
Lemma stoi_pretty (z : Z) :
  is_int z -> coordinate (pretty z) = Some z /\ comma_free (pretty z) = true.
Proof.
  unfold is_int, coordinate, stoi. intros Hz.
  destruct z as [| p | p]; [split; reflexivity | |];
    unfold pretty, pretty_Z, pretty, pretty_positive, pretty, pretty_N;
    (destruct (decide (N.pos p = 0%N)) as [Hzero | _]; [discriminate Hzero |]);
    destruct (pretty_N_go_digits (N.pos p) ltac:(lia) "")
      as (Hread & Hfree & Hstr & c & rest & Hhead & Hdigit & Hspace & Hminus & Hplus).
  - rewrite Hstr. cbn [c_str]. unfold strtol. rewrite Hhead.
    cbn [skip_spaces]. rewrite Hspace, Hminus, Hplus, <- Hhead, Hread.
    cbn [read_digits]. cbn [Z.of_N].
    replace ((INT_MIN <=? Z.pos p) && (Z.pos p <=? INT_MAX)) with true
      by (symmetry; apply andb_true_iff; split; apply Z.leb_le; lia).
    split; [reflexivity | exact Hfree].
  - change ("-" +:+ pretty_N_go (N.pos p) "")
      with (String "-" (pretty_N_go (N.pos p) "")).
    cbn [c_str comma_free]. change (Ascii.eqb "-" zero) with false.
    change (Ascii.eqb "-" singleCharDelim) with false. cbn [negb andb].
    rewrite Hstr. cbn [c_str]. unfold strtol. cbn [skip_spaces].
    change (isspace "-") with false. cbn iota.
    change (Ascii.eqb "-" "-") with true. cbn iota.
    rewrite Hread. cbn [read_digits fmap option_fmap option_map Z.of_N].
    change (- Z.pos p) with (Z.neg p).
    replace ((INT_MIN <=? Z.neg p) && (Z.neg p <=? INT_MAX)) with true
      by (symmetry; apply andb_true_iff; split; apply Z.leb_le; lia).
    split; [reflexivity | exact Hfree].
Qed.

(** X16. A launch position written out is read back: for two values of an
    [int], the string of their decimal forms with a comma between them is
    converted into exactly these two coordinates. *)
Theorem LaunchPosition_round_trip `{Externals} (x0 y0 : Z) :
  is_int x0 -> is_int y0 ->
  FromJson (Json.stringValue (pretty x0 ++ "," ++ pretty y0))
    = Ok {| x := Some x0; y := Some y0 |}.
Proof.
  intros Hx Hy.
  destruct (stoi_pretty x0 Hx) as [Hx0 Hfree0].
  destruct (stoi_pretty y0 Hy) as [Hy0 Hfree1].
  cbn [FromJson ConversionTrait_LaunchPosition LaunchPosition_FromJson
         Json.asString].
  change ("," ++ pretty y0) with (String singleCharDelim (pretty y0)).
  set (stream := pretty x0 ++ _). f_equal.
  rewrite (LaunchPosition_loop_fuel _ (S (S (String.length stream)))) by lia.
  subst stream. rewrite LaunchPosition_loop_two; try assumption.
  - now rewrite Hx0, Hy0.
  - rewrite length_append. simpl. lia.
Qed.

Lemma LaunchPosition_round_trip_witness :
  FromJson (ConversionTrait := ConversionTrait_LaunchPosition (H := plain_externals))
    (Json.stringValue (pretty (-1920) ++ "," ++ pretty 1080))
    = Ok {| x := Some (-1920); y := Some 1080 |}.
Proof.
  apply (LaunchPosition_round_trip (H := plain_externals));
    unfold is_int, INT_MIN, INT_MAX; lia.
Defined.

(** ** [GetValuesForKeys] *)

Lemma on_reference_thrown {S R : Type} (r : reference S)
    (call : ref_type r -> outcome (ref_type r) R) (s s' : S) (e : exception) :
  on_reference r call s = Thrown s' e ->
  exists v, call (ref_get r s) = Thrown v e /\ s' = ref_set r v s.
Proof.
  unfold on_reference. destruct (call (ref_get r s)); [discriminate |].
  intros [= <- <-]. eauto.
Qed.

Lemma GetValueForKey_thrown_member {T : Type} `{GetValueFor T}
    (m : gmap string Json.Value) (key : string) (target v : T) (e : exception) :
  GetValueForKey (Json.objectValue m) key target = Thrown v e ->
  exists found inner,
    m !! key = Some found /\ get_value found target = Thrown v inner /\
    e = KeyedException key inner.
Proof.
  unfold GetValueForKey. cbn [Json.find].
  destruct (m !! key) as [found |]; [| discriminate].
  destruct (get_value found target) as [v' b | v' inner] eqn:Hget;
    [discriminate |].
  intros [= <- <-]. exists found, inner. auto.
Qed.

(** X17. [GetValuesForKeys] on an object stops at the first pair whose
    conversion throws: the pairs before it have been carried out, the
    exception is a [KeyedException] with the key of that pair around what the
    conversion threw, and the pairs after it are not looked at. *)
Theorem GetValuesForKeys_stops {S : Type} (m : gmap string Json.Value)
    (args : list (string * reference S)) (s s' : S) (e : exception) :
  GetValuesForKeys (Json.objectValue m) args s = Thrown s' e ->
  exists before key val after s1 found target' inner,
    args = (before ++ (key, val) :: after)%list /\
    GetValuesForKeys (Json.objectValue m) before s = Returned s1 tt /\
    m !! key = Some found /\
    get_value (GetValueFor := ref_overload val) found (ref_get val s1)
      = Thrown target' inner /\
    e = KeyedException key inner /\
    s' = ref_set val target' s1.
Proof.
  revert s. induction args as [| [key1 val1] args IH]; intros s;
    cbn [GetValuesForKeys]; [discriminate |].
  intros Hthrown. apply seq_thrown in Hthrown as [Hfirst | (s1 & r1 & Hfirst & Hrest)].
  - apply on_reference_thrown in Hfirst as (v & Hfirst & ->).
    apply GetValueForKey_thrown_member in Hfirst as (found & inner & Hm & Hget & ->).
    exists [], key1, val1, args, s, found, v, inner. auto 10.
  - apply IH in Hrest
      as (before & key & val & after & s2 & found & v & inner
          & -> & Hbefore & Hm & Hget & -> & ->).
    exists ((key1, val1) :: before), key, val, after, s2, found, v, inner.
    repeat split; try assumption.
    cbn [GetValuesForKeys]. unfold seq at 1. now rewrite Hfirst.
Qed.

(** X18. [GetValuesForKeys] returns, and leaves every target as it was,
    when the document is an object without any of the keys; a target is an
    object to which writing back what was read changes nothing. *)
Theorem GetValuesForKeys_absent {S : Type} (m : gmap string Json.Value)
    (args : list (string * reference S)) (s : S) :
  (forall key val, In (key, val) args ->
     m !! key = None /\ ref_set val (ref_get val s) s = s) ->
  GetValuesForKeys (Json.objectValue m) args s = Returned s tt.
Proof.
  induction args as [| [key1 val1] args IH]; intros Habsent;
    cbn [GetValuesForKeys]; [reflexivity |].
  destruct (Habsent key1 val1 (or_introl eq_refl)) as [Hm Hback].
  unfold seq at 1, on_reference, GetValueForKey. cbn [Json.find].
  rewrite Hm, Hback. apply IH. intros key val Hin.
  apply Habsent. now right.
Qed.

(** X19. The overload of [GetValue] for [std::optional] never returns
    false: when it returns it returns true, with [nullopt] for the null
    document and for no other.  So through [GetValueForKey] a null member
    differs from a missing key for an optional target, which it resets,
    and does not for a plain one, which it leaves. *)
Theorem GetValue_optional_never_false {T : Type} `{ConversionTrait T}
    `{ValueInit T} (json : Json.Value) (target : option T) :
  (forall target' b, GetValue_optional json target = Returned target' b ->
     b = true /\ (target' = None <-> Json.isNull json = true)) /\
  (forall (m : gmap string Json.Value) (key : string) (plain : T),
     m !! key = Some json -> Json.isNull json = true ->
     GetValueForKey (Json.objectValue m) key target = Returned None true /\
     GetValueForKey (Json.objectValue m) key plain = Returned plain false).
Proof.
  split.
  - intros target' b.
    destruct (GetValue_optional_inv json target)
      as [[-> Hnull] | [(e & -> & Hnull) | (v & -> & Hnull & _)]];
      [| discriminate |]; intros [= <- <-]; (split; [reflexivity |]);
      split; congruence.
  - intros m key plain Hm Hnull.
    rewrite !(GetValueForKey_found (Json.objectValue m) json)
      by (cbn [Json.find]; now rewrite Hm).
    unfold get_value at 1, GetValueFor_optional.
    rewrite (GetValue_optional_null json target Hnull).
    unfold get_value, GetValueFor_T, GetValue, Json.to_bool.
    now rewrite Hnull.
Qed.

(** ** The theorems above at documents *)

Section AtDocuments.
#[local] Existing Instance plain_externals.

Lemma LayerJson_collects_warnings_witness :
  match given with_keybindings KeybindingsKey with
  | Some keybindings =>
      exists warnings,
        AppKeyBindings_LayerJson keybindings
          (_keybindings GlobalAppSettings_ctor)
          = Returned (GetKeybindings GlobalAppSettings_ctor) warnings /\
        GetKeybindingsWarnings GlobalAppSettings_ctor
          = (GetKeybindingsWarnings GlobalAppSettings_ctor ++ warnings)%list
  | None =>
      GetKeybindings GlobalAppSettings_ctor
        = GetKeybindings GlobalAppSettings_ctor /\
      GetKeybindingsWarnings GlobalAppSettings_ctor
        = GetKeybindingsWarnings GlobalAppSettings_ctor
  end.
Proof.
  apply (LayerJson_collects_warnings).
  vm_compute. reflexivity.
Defined.

Lemma LayerJson_again_witness :
  LayerJson (Json.objectValue rows_50)
    (set_InitialRows 50 GlobalAppSettings_ctor)
    = LayerJson_keybindings (Json.objectValue rows_50)
        (set_InitialRows 50 GlobalAppSettings_ctor) /\
  (forall s2,
     LayerJson (Json.objectValue rows_50)
       (set_InitialRows 50 GlobalAppSettings_ctor) = Returned s2 tt ->
     forall f,
       Field.get f s2 = Field.get f (set_InitialRows 50 GlobalAppSettings_ctor)).
Proof.
  apply (LayerJson_again rows_50 GlobalAppSettings_ctor).
  vm_compute. reflexivity.
Defined.


Lemma LayerJson_commutes_witness :
  Field.get Field.InitialCols
    (set_InitialCols 100 (set_InitialRows 50 GlobalAppSettings_ctor))
  = Field.get Field.InitialCols
      (set_InitialRows 50 (set_InitialCols 100 GlobalAppSettings_ctor)).
Proof.
  refine (LayerJson_commutes rows_50 cols_100 GlobalAppSettings_ctor
            (set_InitialRows 50 GlobalAppSettings_ctor)
            (set_InitialCols 100 (set_InitialRows 50 GlobalAppSettings_ctor))
            (set_InitialCols 100 GlobalAppSettings_ctor)
            (set_InitialRows 50 (set_InitialCols 100 GlobalAppSettings_ctor))
            _ _ _ _ _ Field.InitialCols);
    [intros f; destruct f; vm_compute; auto | vm_compute; reflexivity ..].
Defined.

Lemma LayerJson_exceptions_witness :
  (exists f found,
     given rows_oops (Field.key f) = Some found /\
     can_convert f found = false /\
     KeyedException "initialRows" TypeMismatchException
       = KeyedException (Field.key f) TypeMismatchException) \/
  (exists text inner,
     given rows_oops DefaultProfileKey = Some (Json.stringValue text) /\
     GuidFromString text = Throw inner /\
     KeyedException "initialRows" TypeMismatchException
       = KeyedException DefaultProfileKey inner) \/
  (exists text inner,
     given rows_oops WordDelimitersKey = Some (Json.stringValue text) /\
     u8u16 text = Throw inner /\
     KeyedException "initialRows" TypeMismatchException
       = KeyedException WordDelimitersKey inner) \/
  (exists keybindings bindings,
     given rows_oops KeybindingsKey = Some keybindings /\
     AppKeyBindings_LayerJson keybindings
       (_keybindings GlobalAppSettings_ctor)
       = Thrown bindings (KeyedException "initialRows" TypeMismatchException)).
Proof.
  apply (LayerJson_exceptions rows_oops
           GlobalAppSettings_ctor
           (set_AlwaysShowTabs false GlobalAppSettings_ctor)).
  vm_compute. reflexivity.
Defined.

Lemma LayerJson_keeps_ints_witness :
  ints_in_range
    (set_InitialRows 50 GlobalAppSettings_ctor).
Proof.
  apply (LayerJson_keeps_ints rows_50
           GlobalAppSettings_ctor).
  - unfold rows_50. intros key found [_ <-]%lookup_singleton_Some.
    unfold representable. lia.
  - unfold ints_in_range, position_is_int, is_int, INT_MIN, INT_MAX.
    cbn. repeat split; try lia; discriminate.
  - vm_compute. reflexivity.
Defined.

Lemma GetValuesForKeys_stops_witness :
  exists before key val after s1 found target' inner,
    [("rows", variable); ("cols", variable); ("more", variable)]
      = (before ++ (key, val) :: after)%list /\
    GetValuesForKeys
      (Json.objectValue
         (<[ "rows" := Json.intValue 3 ]> {[ "cols" := Json.stringValue "x" ]}))
      before 0 = Returned s1 tt /\
    (<[ "rows" := Json.intValue 3 ]> {[ "cols" := Json.stringValue "x" ]}
       : gmap string Json.Value) !! key = Some found /\
    get_value (GetValueFor := ref_overload val) found (ref_get val s1)
      = Thrown target' inner /\
    KeyedException "cols" TypeMismatchException = KeyedException key inner /\
    3 = ref_set val target' s1.
Proof.
  apply (GetValuesForKeys_stops
           (<[ "rows" := Json.intValue 3 ]> {[ "cols" := Json.stringValue "x" ]})
           [("rows", variable); ("cols", variable); ("more", variable)] 0 3).
  vm_compute. reflexivity.
Defined.

Lemma GetValuesForKeys_absent_witness :
  GetValuesForKeys (Json.objectValue {[ "other" := Json.intValue 1 ]})
    [("rows", variable); ("cols", variable)] 7 = Returned 7 tt.
Proof.
  apply (GetValuesForKeys_absent {[ "other" := Json.intValue 1 ]}
           [("rows", variable); ("cols", variable)] 7).
  intros key val [[= <- <-] | [[= <- <-] | []]]; split; reflexivity.
Defined.

End AtDocuments.
